(** * Inventory store: a shallow embedding of [inventory_system.py]

    The Python module keeps a dict from item names to quantities, adds and
    removes stock, reports low-stock items, and saves/loads the dict as JSON.

    Modelling choices, all taken from the source:
    - Python values are the inductive [pyval]; [int] is unbounded, so it is [Z];
      [bool] is a subclass of [int], as in Python.  A [set] is kept with its
      elements in iteration order.  Floats and complex numbers are outside the
      model.
    - a [str] is a Rocq [string] whose characters are the code points 0..255;
      item names are [str], as the docstrings type them.
    - a dict keeps insertion order, so it is an association list.
    - converting an [int] to text raises [ValueError] above the interpreter's
      limit on digits (4300 by default); every place that formats an integer
      can fail this way.
    - the functions mutate their arguments and log through the [logging]
      module, and several raise or catch exceptions: they run in a small
      state-and-exception monad [M] over a [world].  State changes made before
      an exception is raised are kept, as in Python.
    - [json.dump] and [json.load] belong to the standard library, not to the
      module: they are the interface [JsonCodec].  [PyJson] is an executable
      model of them on the values and texts it covers; where it is silent
      the codec built from it defers to functions nothing is assumed about.
    - [main] passes an [int] as an item name and calls the functions on
      whatever [load_data] returned; it is not modelled.

    The file has the model first, then the facts about its primitives, then
    one theorem for each property of the specification. *)

From Stdlib Require Import ZArith String Ascii List Lia.
From Stdlib Require Import DecimalString DecimalPos DecimalFacts.
From stdpp Require Import base option gmap strings list.

#[local] Open Scope Z_scope.
#[local] Open Scope string_scope.
#[local] Open Scope list_scope.

(** ** Values *)

#[local] Set Warnings "-register-all".

Inductive pyval : Type :=
| PNone
| PBool (b : bool)
| PInt (z : Z)
| PStr (s : string)
| PList (l : list pyval)
| PDict (d : list (string * pyval))
| PSet (l : list pyval).

(** A dict with [str] keys, in insertion order. *)
Abbreviation pydict := (list (string * pyval)).

(** [isinstance(v, int)]: true of ints and of bools. *)
Definition isinstance_int (v : pyval) : bool :=
  match v with
  | PBool _ | PInt _ => true
  | _ => false
  end.

(** The integer an [int] or [bool] stands for in arithmetic. *)
Definition int_value (v : pyval) : option Z :=
  match v with
  | PInt z => Some z
  | PBool b => Some (if b then 1 else 0)
  | _ => None
  end.

Definition is_set (v : pyval) : bool :=
  match v with
  | PSet _ => true
  | _ => false
  end.

(** Exceptions raised by the operations used in the module.  [OSError] is the
    class Python also calls [IOError]. *)
Inductive exn : Type :=
| KeyError
| TypeError
| ValueError
| RecursionError
| OSError
| FileNotFoundError
| IsADirectoryError
| NotADirectoryError
| PermissionError
| JSONDecodeError
| UnicodeDecodeError.

#[global] Instance exn_eq_dec : EqDecision exn.
Proof. solve_decision. Defined.

(** [exn_isa e c]: an exception of class [e] is caught by [except c]. *)
Definition exn_isa (e c : exn) : bool :=
  match c, e with
  | OSError, (OSError | FileNotFoundError | IsADirectoryError
              | NotADirectoryError | PermissionError) => true
  | ValueError, (ValueError | JSONDecodeError | UnicodeDecodeError) => true
  | _, _ => bool_decide (e = c)
  end.

Inductive outcome (A : Type) : Type :=
| Return (a : A)
| Raise (e : exn).
Arguments Return {A} a.
Arguments Raise {A} e.

(** ** Operators *)

Fixpoint dict_lookup (k : string) (d : pydict) : option pyval :=
  match d with
  | [] => None
  | (k', v) :: d' => if String.eqb k k' then Some v else dict_lookup k d'
  end.

(** [a == b] on the values of the model. *)
Fixpoint py_eq (a b : pyval) {struct a} : bool :=
  match a, b with
  | PNone, PNone => true
  | PStr s, PStr t => String.eqb s t
  | PList l, PList m =>
      (fix all2 (l m : list pyval) {struct l} : bool :=
         match l, m with
         | [], [] => true
         | x :: l', y :: m' => py_eq x y && all2 l' m'
         | _, _ => false
         end) l m
  | PDict d, PDict e =>
      Nat.eqb (length d) (length e) &&
      (fix sub (d : pydict) {struct d} : bool :=
         match d with
         | [] => true
         | (k, v) :: d' =>
             match dict_lookup k e with
             | Some v' => py_eq v v'
             | None => false
             end && sub d'
         end) d
  | PSet l, PSet m =>
      Nat.eqb (length l) (length m) &&
      (fix sub (l : list pyval) {struct l} : bool :=
         match l with
         | [] => true
         | x :: l' =>
             (fix mem (m : list pyval) {struct m} : bool :=
                match m with
                | [] => false
                | y :: m' => py_eq x y || mem m'
                end) m && sub l'
         end) l
  | (PBool _ | PInt _), (PBool _ | PInt _) =>
      match int_value a, int_value b with
      | Some x, Some y => Z.eqb x y
      | _, _ => false
      end
  | _, _ => false
  end.

(** [x in s] for the elements [s] of a set. *)
Definition set_member (x : pyval) (s : list pyval) : bool :=
  existsb (py_eq x) s.

(** [a + b] *)
Definition py_add (a b : pyval) : outcome pyval :=
  match a, b with
  | PStr s, PStr t => Return (PStr (s +:+ t))
  | PList l, PList m => Return (PList (l ++ m))
  | _, _ =>
      match int_value a, int_value b with
      | Some x, Some y => Return (PInt (x + y))
      | _, _ => Raise TypeError
      end
  end.

(** [a - b], also what [a -= b] computes: numbers subtract, and a set loses
    the elements of another set and keeps the order of the rest. *)
Definition py_sub (a b : pyval) : outcome pyval :=
  match a, b with
  | PSet l, PSet m => Return (PSet (List.filter (fun x => negb (set_member x m)) l))
  | _, _ =>
      match int_value a, int_value b with
      | Some x, Some y => Return (PInt (x - y))
      | _, _ => Raise TypeError
      end
  end.

(** [a <= b].  Numbers compare by value, strings and lists lexicographically,
    sets by inclusion; any other pair of types raises [TypeError]. *)
Fixpoint py_le (a b : pyval) {struct a} : outcome bool :=
  match a, b with
  | PStr s, PStr t => Return (String.leb s t)
  | PList l, PList m =>
      (fix lex (l m : list pyval) {struct l} : outcome bool :=
         match l, m with
         | [], _ => Return true
         | _ :: _, [] => Return false
         | x :: l', y :: m' => if py_eq x y then lex l' m' else py_le x y
         end) l m
  | PSet l, PSet m => Return (forallb (fun x => set_member x m) l)
  | (PBool _ | PInt _), (PBool _ | PInt _) =>
      match int_value a, int_value b with
      | Some x, Some y => Return (Z.leb x y)
      | _, _ => Raise TypeError
      end
  | _, _ => Raise TypeError
  end.

(** ** Text *)

(** The interpreter's limit on the decimal digits of an integer it converts
    to or from text ([sys.int_max_str_digits], 4300 unless it is changed). *)
Definition int_max_str_digits : nat := 4300.

(** The number of decimal digits of an integer, sign apart. *)
Definition int_digits (z : Z) : nat :=
  match z with
  | Z0 => 1%nat
  | Zpos p | Zneg p => Decimal.nb_digits (Pos.to_uint p)
  end.

(** The integer has more digits than the limit allows. *)
Definition exceeds_digit_limit (z : Z) : bool :=
  Nat.ltb int_max_str_digits (int_digits z).

(** [str(z)] of an [int]: [ValueError] above the limit. *)
Definition int_str (z : Z) : outcome string :=
  if exceeds_digit_limit z then Raise ValueError
  else Return (NilZero.string_of_int (Z.to_int z)).

Definition quote : ascii := "034"%char.
Definition backslash : ascii := "092"%char.
Definition newline : ascii := "010"%char.

Definition hex_digit (n : nat) : ascii :=
  nth n (list_ascii_of_string "0123456789abcdef") "0"%char.

(** [sep.join(l)] *)
Fixpoint join (sep : string) (l : list string) : string :=
  match l with
  | [] => ""
  | [x] => x
  | x :: l' => x +:+ sep +:+ join sep l'
  end.

(** [repr] leaves a character of a [str] as it is when it is printable: the
    ASCII range from the space to the tilde, and U+00A1 to U+00FF without the
    soft hyphen U+00AD. *)
Definition repr_printable (c : ascii) : bool :=
  let n := nat_of_ascii c in
  (Nat.leb 32 n && Nat.leb n 126) || (Nat.leb 161 n && negb (Nat.eqb n 173)).

(** One character of a [str] inside the quotes [q] of its [repr]. *)
Definition repr_char (q c : ascii) : string :=
  let n := nat_of_ascii c in
  if Ascii.eqb c q || Ascii.eqb c backslash
  then String backslash (String c "")
  else if Ascii.eqb c "009" then "\t"
  else if Ascii.eqb c "010" then "\n"
  else if Ascii.eqb c "013" then "\r"
  else if repr_printable c then String c ""
  else "\x" +:+ String (hex_digit (n / 16)) (String (hex_digit (n mod 16)) "").

Fixpoint repr_chars (q : ascii) (s : string) : string :=
  match s with
  | EmptyString => ""
  | String c s' => repr_char q c +:+ repr_chars q s'
  end.

Fixpoint contains (c : ascii) (s : string) : bool :=
  match s with
  | EmptyString => false
  | String c' s' => Ascii.eqb c c' || contains c s'
  end.

(** [repr(s)] of a [str]: in single quotes, unless the text has a single quote
    and no double quote. *)
Definition repr_str (s : string) : string :=
  let q := if contains "'" s && negb (contains quote s)
           then quote else "'"%char in
  String q (repr_chars q s +:+ String q "").

(** The interpreter limits the depth of its calls (1000 frames unless it is
    changed), and walking a value takes calls for each container inside
    another.  Values and texts nested up to [max_depth] stay clear of the
    limit; the model says nothing about what [RecursionError] does to deeper
    ones. *)
Definition max_depth : nat := 100.

(** The containers nested inside one another in a value. *)
Fixpoint nesting (v : pyval) {struct v} : nat :=
  match v with
  | PList l | PSet l => S (fold_right (fun x n => Nat.max (nesting x) n) 0%nat l)
  | PDict d => S (fold_right (fun kv n => Nat.max (nesting (snd kv)) n) 0%nat d)
  | _ => 0%nat
  end.

(** [x :: l] under the outcomes of computing both, in that order. *)
Definition outcome_cons {A} (x : outcome A) (l : outcome (list A)) : outcome (list A) :=
  match x with
  | Raise e => Raise e
  | Return a =>
      match l with
      | Raise e => Raise e
      | Return al => Return (a :: al)
      end
  end.

Definition outcome_map {A B} (f : A -> B) (x : outcome A) : outcome B :=
  match x with
  | Return a => Return (f a)
  | Raise e => Raise e
  end.

(** [repr(v)]: the parts of a container are converted in order, and the first
    failure is the failure of the whole.  This is [repr] on values nested up
    to [max_depth]. *)
Fixpoint py_repr (v : pyval) {struct v} : outcome string :=
  match v with
  | PNone => Return "None"
  | PBool true => Return "True"
  | PBool false => Return "False"
  | PInt z => int_str z
  | PStr s => Return (repr_str s)
  | PList l =>
      outcome_map (fun parts => "[" +:+ join ", " parts +:+ "]")
        ((fix each (l : list pyval) : outcome (list string) :=
            match l with
            | [] => Return []
            | x :: l' => outcome_cons (py_repr x) (each l')
            end) l)
  | PDict d =>
      outcome_map (fun parts => "{" +:+ join ", " parts +:+ "}")
        ((fix each (d : pydict) : outcome (list string) :=
            match d with
            | [] => Return []
            | (k, x) :: d' =>
                outcome_cons
                  (outcome_map (fun t => repr_str k +:+ ": " +:+ t) (py_repr x))
                  (each d')
            end) d)
  | PSet [] => Return "set()"
  | PSet l =>
      outcome_map (fun parts => "{" +:+ join ", " parts +:+ "}")
        ((fix each (l : list pyval) : outcome (list string) :=
            match l with
            | [] => Return []
            | x :: l' => outcome_cons (py_repr x) (each l')
            end) l)
  end.

(** [str(v)], which is what an f-string puts for [{v}]. *)
Definition py_str (v : pyval) : outcome string :=
  match v with
  | PStr s => Return s
  | _ => py_repr v
  end.

(** ** Dict primitives on the association list *)

(** [d[k] = v]: an existing key keeps its place, a new key goes last. *)
Fixpoint dict_store (k : string) (v : pyval) (d : pydict) : pydict :=
  match d with
  | [] => [(k, v)]
  | (k', v') :: d' =>
      if String.eqb k k' then (k', v) :: d' else (k', v') :: dict_store k v d'
  end.

(** [del d[k]] on a dict that has the key. *)
Definition dict_remove (k : string) (d : pydict) : pydict :=
  List.filter (fun kv => negb (String.eqb k (fst kv))) d.

(** Keys of a dict are pairwise distinct. *)
Definition dict_wf (d : pydict) : Prop := NoDup (map fst d).

(** ** The world the module runs in *)

Inductive level : Type := INFO | WARNING | ERROR.

Inductive log_arg : Type :=
| ArgVal (v : pyval)
| ArgExn (e : exn).

(** One call of [logging.info], [logging.warning] or [logging.error]: the
    format string and its arguments, kept apart as the lazy [%] style does. *)
Record log_record : Type := LogRecord {
  log_level : level;
  log_format : string;
  log_args : list log_arg
}.

(** What a path names. A path missing from the file table is a file that does
    not exist in an existing directory. *)
Inductive entry : Type :=
| File (text : string)
| Dir
| NoParent      (* the directory part of the path does not exist *)
| Undecodable   (* a file whose bytes are not UTF-8 text *)
| UnderFile     (* the directory part of the path is a regular file *)
| Denied.       (* the process may not open the path *)

Record world : Type := World {
  stock : pydict;                 (* the dict object passed as [stock_data] *)
  lists : list (list string);     (* list objects, addressed by position *)
  emitted : list log_record;      (* records handed to [logging] *)
  files : gmap string entry;      (* the file system *)
  clock : string                  (* [str(datetime.now())] *)
}.

(** ** The monad *)

Definition M (A : Type) : Type := world -> outcome A * world.

#[global] Instance M_ret : MRet M := fun A a w => (Return a, w).

#[global] Instance M_bind : MBind M := fun A B f m w =>
  match m w with
  | (Return a, w') => f a w'
  | (Raise e, w') => (Raise e, w')
  end.

Definition lift {A} (o : outcome A) : M A := fun w => (o, w).

Definition raise {A} (e : exn) : M A := lift (Raise e).

(** [try: body except c1 (as e): h1 except c2 (as e): h2 ...]: the first
    handler whose class matches runs, in the state the body left. *)
Definition try_except {A} (body : M A) (handlers : list (exn * (exn -> M A))) : M A :=
  fun w =>
    match body w with
    | (Return a, w') => (Return a, w')
    | (Raise e, w') =>
        match List.find (fun h => exn_isa e (fst h)) handlers with
        | Some h => snd h e w'
        | None => (Raise e, w')
        end
    end.

Definition set_stock (d : pydict) (w : world) : world :=
  World d (lists w) (emitted w) (files w) (clock w).
Definition set_lists (l : list (list string)) (w : world) : world :=
  World (stock w) l (emitted w) (files w) (clock w).
Definition set_emitted (r : list log_record) (w : world) : world :=
  World (stock w) (lists w) r (files w) (clock w).
Definition set_files (f : gmap string entry) (w : world) : world :=
  World (stock w) (lists w) (emitted w) f (clock w).

(** [stock_data.get(item, default)] *)
Definition dict_get (item : string) (default : pyval) : M pyval :=
  fun w => (Return (from_option id default (dict_lookup item (stock w))), w).

(** [stock_data[item]] *)
Definition dict_getitem (item : string) : M pyval :=
  fun w =>
    match dict_lookup item (stock w) with
    | Some v => (Return v, w)
    | None => (Raise KeyError, w)
    end.

(** [stock_data[item] = v] *)
Definition dict_setitem (item : string) (v : pyval) : M unit :=
  fun w => (Return tt, set_stock (dict_store item v (stock w)) w).

(** [del stock_data[item]] *)
Definition dict_delitem (item : string) : M unit :=
  fun w =>
    match dict_lookup item (stock w) with
    | Some _ => (Return tt, set_stock (dict_remove item (stock w)) w)
    | None => (Raise KeyError, w)
    end.

(** [stock_data.items()] *)
Definition dict_items : M pydict := fun w => (Return (stock w), w).

Definition logging (l : level) (fmt : string) (args : list log_arg) : M unit :=
  fun w => (Return tt, set_emitted (emitted w ++ [LogRecord l fmt args]) w).

(** [[]]: a fresh list object. *)
Definition list_new : M nat :=
  fun w => (Return (length (lists w)), set_lists (lists w ++ [[]]) w).

(** [r.append(s)] *)
Definition list_append (r : nat) (s : string) : M unit :=
  fun w =>
    (Return tt,
     set_lists (<[r := from_option id [] (lists w !! r) ++ [s]]> (lists w)) w).

Definition datetime_now : M string := fun w => (Return (clock w), w).

(** [open(file, "r", encoding="utf-8")] followed by reading the whole file. *)
Definition open_read (file : string) : M string :=
  fun w =>
    match files w !! file with
    | Some (File text) => (Return text, w)
    | Some Undecodable => (Raise UnicodeDecodeError, w)
    | Some Dir => (Raise IsADirectoryError, w)
    | Some UnderFile => (Raise NotADirectoryError, w)
    | Some Denied => (Raise PermissionError, w)
    | Some NoParent | None => (Raise FileNotFoundError, w)
    end.

(** [open(file, "w", encoding="utf-8")]: creates the file or empties it. *)
Definition open_write (file : string) : M unit :=
  fun w =>
    match files w !! file with
    | Some (File _) | Some Undecodable | None =>
        (Return tt, set_files (<[file := File ""]> (files w)) w)
    | Some Dir => (Raise IsADirectoryError, w)
    | Some NoParent => (Raise FileNotFoundError, w)
    | Some UnderFile => (Raise NotADirectoryError, w)
    | Some Denied => (Raise PermissionError, w)
    end.

(** [f.write(s)] on the file opened for writing at [file]. *)
Definition file_write (file : string) (s : string) : M unit :=
  fun w =>
    match files w !! file with
    | Some (File text) => (Return tt, set_files (<[file := File (text +:+ s)]> (files w)) w)
    | _ => (Raise OSError, w)
    end.

(** Python's [for x in xs: acc = body(acc, x)]. *)
Fixpoint for_each {A B} (xs : list A) (body : B -> A -> M B) (acc : B) : M B :=
  match xs with
  | [] => mret acc
  | x :: xs' => acc' ← body acc x; for_each xs' body acc'
  end.

(** ** The JSON library *)

(** [json_dump v indent] is what [json.dump(v, f, indent=indent)] does: the
    text it writes to the file, and whether it then returns or raises (it
    writes piece by piece, so text can be written before it raises).
    [json_loads s] is the value [json.load] parses from the text [s], [None]
    where it raises, and [json_load_error s] is then the exception. *)
Class JsonCodec : Type := {
  json_dump : pyval -> nat -> string * outcome unit;
  json_loads : string -> option pyval;
  json_load_error : string -> exn
}.

(** ** The module *)

(** A parameter that has a default value is an [option]: [None] is the call
    that leaves the argument out. *)
Definition arg {A} (default : A) (given : option A) : A := from_option id default given.

Section InventorySystem.
Context `{JsonCodec}.

Definition add_item (item : option string) (qty : option pyval) (logs : option nat) : M unit :=
  let item := arg "default" item in
  let qty := arg (PInt 0) qty in
  logs ← match logs with
         | None => list_new
         | Some r => mret r
         end;
  if String.eqb item "" then
    logging WARNING "No item name provided. Skipping." []
  else if negb (isinstance_int qty) then
    logging ERROR "Invalid quantity '%s' for item '%s'. Must be an integer."
      [ArgVal qty; ArgVal (PStr item)]
  else
    old ← dict_get item (PInt 0);
    new ← lift (py_add old qty);
    dict_setitem item new;;
    qty_text ← lift (py_str qty);
    let log_msg := "Added " +:+ qty_text +:+ " of " +:+ item in
    now ← datetime_now;
    list_append logs (now +:+ ": " +:+ log_msg);;
    logging INFO "Added %d of %s" [ArgVal qty; ArgVal (PStr item)].

Definition remove_item (item : string) (qty : pyval) : M unit :=
  try_except
    (old ← dict_getitem item;
     new ← lift (py_sub old qty);
     dict_setitem item new;;
     cur ← dict_getitem item;
     depleted ← lift (py_le cur (PInt 0));
     if depleted : bool then
       dict_delitem item;;
       logging INFO "Removed item '%s' from stock (quantity was <= 0)."
         [ArgVal (PStr item)]
     else mret tt)
    [(KeyError, fun _ =>
        logging WARNING "Failed to remove item '%s': Item not found in stock."
          [ArgVal (PStr item)]);
     (TypeError, fun _ =>
        logging ERROR "Failed to remove item '%s': Invalid quantity or stock value."
          [ArgVal (PStr item)])].

Definition get_qty (item : string) : M pyval :=
  dict_get item (PInt 0).

Definition load_data (file : option string) : M pyval :=
  let file := arg "inventory.json" file in
  try_except
    (text ← open_read file;
     data ← match json_loads text with
            | Some v => mret v
            | None => raise (json_load_error text)
            end;
     logging INFO "Data loaded successfully from %s." [ArgVal (PStr file)];;
     mret data)
    [(FileNotFoundError, fun _ =>
        logging WARNING "Data file '%s' not found. Starting with empty inventory."
          [ArgVal (PStr file)];;
        mret (PDict []));
     (JSONDecodeError, fun _ =>
        logging ERROR "Could not decode JSON from '%s'. Starting with empty inventory."
          [ArgVal (PStr file)];;
        mret (PDict []))].

Definition save_data (file : option string) : M unit :=
  let file := arg "inventory.json" file in
  try_except
    (open_write file;;
     d ← dict_items;
     let written := json_dump (PDict d) 4 in
     file_write file (fst written);;
     lift (snd written);;
     logging INFO "Data saved successfully to %s." [ArgVal (PStr file)])
    [(OSError, fun e =>
        logging ERROR "Could not write to file '%s': %s"
          [ArgVal (PStr file); ArgExn e])].

Definition check_low_items (threshold : option pyval) : M (list string) :=
  let threshold := arg (PInt 5) threshold in
  items ← dict_items;
  for_each items
    (fun result '(item, qty) =>
       low ← lift (py_le qty threshold);
       if low : bool then mret (result ++ [item]) else mret result)
    [].

End InventorySystem.

(** ** The report

    [print_data] writes to the standard output, which the [world] of the other
    functions does not hold: a [process] pairs that world with the text on
    the standard output, assumed to take any text. *)

Record process : Type := Process {
  memory : world;
  stdout : string
}.

Definition IO (A : Type) : Type := process -> outcome A * process.

#[global] Instance IO_ret : MRet IO := fun A a p => (Return a, p).

#[global] Instance IO_bind : MBind IO := fun A B f m p =>
  match m p with
  | (Return a, p') => f a p'
  | (Raise e, p') => (Raise e, p')
  end.

(** A computation on the world, run inside the process. *)
Definition in_memory {A} (m : M A) : IO A :=
  fun p =>
    match m (memory p) with
    | (o, w') => (o, Process w' (stdout p))
    end.

(** [print(s)] *)
Definition print (s : string) : IO unit :=
  fun p => (Return tt, Process (memory p) (stdout p +:+ s +:+ String newline "")).

(** [for item, qty in items: body(item, qty)] *)
Fixpoint for_items (items : pydict) (body : string -> pyval -> IO unit) : IO unit :=
  match items with
  | [] => mret tt
  | (item, qty) :: items' => body item qty;; for_items items' body
  end.

Definition print_data : IO unit :=
  print (String newline "--- Items Report ---");;
  stock_data ← in_memory dict_items;
  match stock_data with
  | [] => print "Inventory is empty."
  | _ =>
      for_items stock_data
        (fun item qty =>
           qty_text ← in_memory (lift (py_str qty));
           print (item +:+ ": " +:+ qty_text))
  end;;
  print ("--------------------" +:+ String newline "").

(** ** A reference JSON codec

    An executable model of [json.dump(obj, f, indent=n)] and [json.load] on
    the values of [pyval] and on texts of code points up to U+00FF, after
    CPython's [json.encoder] and [json.decoder]: [ensure_ascii] escaping on
    output, the strict scanner on input, the limit on the digits of an integer
    in both directions.  Its results have three forms: a value, an exception,
    or [Beyond] where the model does not speak: JSON numbers with a fraction or
    an exponent and the constants [NaN] and [Infinity] (they are floats), [\u]
    escapes above U+00FF, and nesting deeper than [max_depth], where the
    interpreter may raise [RecursionError]. *)

Module PyJson.

Inductive result (A : Type) : Type :=
| Got (a : A)
| Fail (e : exn)
| Beyond.
Arguments Got {A} a.
Arguments Fail {A} e.
Arguments Beyond {A}.

Definition result_map {A B} (f : A -> B) (x : result A) : result B :=
  match x with
  | Got a => Got (f a)
  | Fail e => Fail e
  | Beyond => Beyond
  end.

(** [x :: l] under the results of computing both, in that order. *)
Definition result_cons {A} (x : result A) (l : result (list A)) : result (list A) :=
  match x with
  | Got a => result_map (cons a) l
  | Fail e => Fail e
  | Beyond => Beyond
  end.

(** One character of a string as [ensure_ascii] writes it. *)
Definition encode_char (c : ascii) : string :=
  let n := nat_of_ascii c in
  if Ascii.eqb c quote then String backslash (String quote "")
  else if Ascii.eqb c backslash then String backslash (String backslash "")
  else if Ascii.eqb c newline then "\n"
  else if Ascii.eqb c "013" then "\r"
  else if Ascii.eqb c "009" then "\t"
  else if Ascii.eqb c "008" then "\b"
  else if Ascii.eqb c "012" then "\f"
  else if Nat.leb 32 n && Nat.leb n 126 then String c ""
  else "\u00" +:+ String (hex_digit (n / 16)) (String (hex_digit (n mod 16)) "").

Fixpoint encode_chars (s : string) : string :=
  match s with
  | EmptyString => ""
  | String c s' => encode_char c +:+ encode_chars s'
  end.

Definition encode_str (s : string) : string :=
  String quote (encode_chars s +:+ String quote "").

Fixpoint spaces (n : nat) : string :=
  match n with
  | O => ""
  | S n' => String " " (spaces n')
  end.

Definition newline_indent (indent level : nat) : string :=
  String newline (spaces (indent * level)).

(** The text of a non-empty container from the texts of its items: each item
    on a line of its own, one level deeper, a comma after all but the last. *)
Definition block (opening closing : string) (indent level : nat) (items : list string) : string :=
  opening +:+ newline_indent indent (S level) +:+
  join ("," +:+ newline_indent indent (S level)) items +:+
  newline_indent indent level +:+ closing.

(** The encoder with an indent.  The items of a container are encoded in
    order and the first that fails decides; an integer above the limit on
    digits raises [ValueError], a set is not serializable. *)
Fixpoint encode (indent level : nat) (v : pyval) {struct v} : result string :=
  match v with
  | PNone => Got "null"
  | PBool true => Got "true"
  | PBool false => Got "false"
  | PInt z =>
      match int_str z with
      | Return s => Got s
      | Raise e => Fail e
      end
  | PStr s => Got (encode_str s)
  | PSet _ => Fail TypeError
  | PList [] => Got "[]"
  | PList l =>
      if Nat.leb max_depth level then Beyond
      else
        result_map (block "[" "]" indent level)
          ((fix each (l : list pyval) : result (list string) :=
              match l with
              | [] => Got []
              | x :: l' => result_cons (encode indent (S level) x) (each l')
              end) l)
  | PDict [] => Got "{}"
  | PDict d =>
      if Nat.leb max_depth level then Beyond
      else
        result_map (block "{" "}" indent level)
          ((fix each (d : pydict) : result (list string) :=
              match d with
              | [] => Got []
              | (k, x) :: d' =>
                  result_cons
                    (result_map (fun t => encode_str k +:+ ": " +:+ t)
                       (encode indent (S level) x))
                    (each d')
              end) d)
  end.

Definition dumps (v : pyval) (indent : nat) : result string := encode indent 0 v.

Definition is_ws (c : ascii) : bool :=
  Ascii.eqb c " " || Ascii.eqb c "009" || Ascii.eqb c "010" || Ascii.eqb c "013".

Fixpoint skip_ws (s : string) : string :=
  match s with
  | String c s' => if is_ws c then skip_ws s' else s
  | EmptyString => s
  end.

Definition hex_value (c : ascii) : option nat :=
  let n := nat_of_ascii c in
  if Nat.leb 48 n && Nat.leb n 57 then Some (n - 48)%nat
  else if Nat.leb 97 n && Nat.leb n 102 then Some (n - 87)%nat
  else if Nat.leb 65 n && Nat.leb n 70 then Some (n - 55)%nat
  else None.

Definition unescape (c : ascii) : option ascii :=
  if Ascii.eqb c quote then Some quote
  else if Ascii.eqb c backslash then Some backslash
  else if Ascii.eqb c "/" then Some "/"%char
  else if Ascii.eqb c "b" then Some "008"%char
  else if Ascii.eqb c "f" then Some "012"%char
  else if Ascii.eqb c "n" then Some newline
  else if Ascii.eqb c "r" then Some "013"%char
  else if Ascii.eqb c "t" then Some "009"%char
  else None.

Definition cons_char (c : ascii) (r : result (string * string)) : result (string * string) :=
  result_map (fun '(s, rest) => (String c s, rest)) r.

(** The characters of a string literal after its opening quote, and the text
    that follows the closing quote. *)
Fixpoint scan_string (s : string) : result (string * string) :=
  match s with
  | EmptyString => Fail JSONDecodeError
  | String c s' =>
      if Ascii.eqb c quote then Got ("", s')
      else if Ascii.eqb c backslash then
        match s' with
        | String "u" (String h1 (String h2 (String h3 (String h4 s'')))) =>
            match hex_value h1, hex_value h2, hex_value h3, hex_value h4 with
            | Some a, Some b, Some c, Some d =>
                let code := (((a * 16 + b) * 16 + c) * 16 + d)%nat in
                if Nat.ltb code 256 then cons_char (ascii_of_nat code) (scan_string s'')
                else Beyond
            | _, _, _, _ => Fail JSONDecodeError
            end
        | String e s'' =>
            match unescape e with
            | Some c' => cons_char c' (scan_string s'')
            | None => Fail JSONDecodeError
            end
        | EmptyString => Fail JSONDecodeError
        end
      else if Nat.ltb (nat_of_ascii c) 32 then Fail JSONDecodeError
      else cons_char c (scan_string s')
  end.

Definition digit (c : ascii) : option (Decimal.uint -> Decimal.uint) :=
  if Ascii.eqb c "0" then Some Decimal.D0
  else if Ascii.eqb c "1" then Some Decimal.D1
  else if Ascii.eqb c "2" then Some Decimal.D2
  else if Ascii.eqb c "3" then Some Decimal.D3
  else if Ascii.eqb c "4" then Some Decimal.D4
  else if Ascii.eqb c "5" then Some Decimal.D5
  else if Ascii.eqb c "6" then Some Decimal.D6
  else if Ascii.eqb c "7" then Some Decimal.D7
  else if Ascii.eqb c "8" then Some Decimal.D8
  else if Ascii.eqb c "9" then Some Decimal.D9
  else None.

(** The longest run of digits at the head of the text. *)
Fixpoint scan_digits (s : string) : Decimal.uint * string :=
  match s with
  | EmptyString => (Decimal.Nil, s)
  | String c s' =>
      match digit c with
      | Some d => let '(u, rest) := scan_digits s' in (d u, rest)
      | None => (Decimal.Nil, s)
      end
  end.

(** The text after the prefix [p], when the text starts with it. *)
Fixpoint strip_prefix (p s : string) : option string :=
  match p, s with
  | EmptyString, _ => Some s
  | String a p', String b s' => if Ascii.eqb a b then strip_prefix p' s' else None
  | String _ _, EmptyString => None
  end.

(** The text starts with one of the constants that stand for a float. *)
Definition float_constant (s : string) : bool :=
  bool_decide (is_Some (strip_prefix "NaN" s)) ||
  bool_decide (is_Some (strip_prefix "Infinity" s)) ||
  bool_decide (is_Some (strip_prefix "-Infinity" s)).

(** A number, by the scanner's pattern: an optional minus sign, then either a
    single zero or a non-zero digit and any digits.  It is an [int] when
    neither a fraction nor an exponent follows, and [int] raises [ValueError]
    on a numeral above the limit on digits. *)
Definition scan_int (s : string) : result (Z * string) :=
  let '(negative, s1) :=
    match s with
    | String "-" s' => (true, s')
    | _ => (false, s)
    end in
  let '(u, rest) :=
    match s1 with
    | String "0" s' => (Decimal.D0 Decimal.Nil, s')
    | _ => scan_digits s1
    end in
  match u, rest with
  | Decimal.Nil, _ => if float_constant s then Beyond else Fail JSONDecodeError
  | _, String ("." | "e" | "E") _ => Beyond
  | _, _ =>
      if Nat.ltb int_max_str_digits (Decimal.nb_digits u) then Fail ValueError
      else Got (if negative : bool then - Z.of_uint u else Z.of_uint u, rest)
  end.

(** [fuel] bounds the steps and [depth] the containers that may still be
    entered. *)
Fixpoint decode_value (fuel depth : nat) (s : string) {struct fuel}
  : result (pyval * string) :=
  match fuel with
  | O => Beyond
  | S fuel' =>
      match s with
      | String c s' =>
          if Ascii.eqb c quote then
            result_map (fun '(str, rest) => (PStr str, rest)) (scan_string s')
          else if Ascii.eqb c "{" then
            match depth with
            | O => Beyond
            | S depth' =>
                match skip_ws s' with
                | String "}" rest => Got (PDict [], rest)
                | s1 =>
                    result_map (fun '(d, rest) => (PDict d, rest))
                      (decode_members fuel' depth' [] s1)
                end
            end
          else if Ascii.eqb c "[" then
            match depth with
            | O => Beyond
            | S depth' =>
                match skip_ws s' with
                | String "]" rest => Got (PList [], rest)
                | s1 =>
                    result_map (fun '(l, rest) => (PList l, rest))
                      (decode_elements fuel' depth' [] s1)
                end
            end
          else if Ascii.eqb c "n" then
            match strip_prefix "null" s with
            | Some rest => Got (PNone, rest)
            | None => Fail JSONDecodeError
            end
          else if Ascii.eqb c "t" then
            match strip_prefix "true" s with
            | Some rest => Got (PBool true, rest)
            | None => Fail JSONDecodeError
            end
          else if Ascii.eqb c "f" then
            match strip_prefix "false" s with
            | Some rest => Got (PBool false, rest)
            | None => Fail JSONDecodeError
            end
          else
            result_map (fun '(z, rest) => (PInt z, rest)) (scan_int s)
      | EmptyString => Fail JSONDecodeError
      end
  end

(** The members of an object from a key on, up to the closing brace; [acc]
    holds the members read so far. A repeated key keeps its last value. *)
with decode_members (fuel depth : nat) (acc : pydict) (s : string) {struct fuel}
  : result (pydict * string) :=
  match fuel with
  | O => Beyond
  | S fuel' =>
      match s with
      | String c s' =>
          if Ascii.eqb c quote then
            match scan_string s' with
            | Got (key, s1) =>
                match skip_ws s1 with
                | String ":" s2 =>
                    match decode_value fuel' depth (skip_ws s2) with
                    | Got (v, s3) =>
                        let acc' := dict_store key v acc in
                        match skip_ws s3 with
                        | String "}" rest => Got (acc', rest)
                        | String "," s4 => decode_members fuel' depth acc' (skip_ws s4)
                        | _ => Fail JSONDecodeError
                        end
                    | Fail e => Fail e
                    | Beyond => Beyond
                    end
                | _ => Fail JSONDecodeError
                end
            | Fail e => Fail e
            | Beyond => Beyond
            end
          else Fail JSONDecodeError
      | EmptyString => Fail JSONDecodeError
      end
  end

(** The elements of an array from a value on, up to the closing bracket. *)
with decode_elements (fuel depth : nat) (acc : list pyval) (s : string) {struct fuel}
  : result (list pyval * string) :=
  match fuel with
  | O => Beyond
  | S fuel' =>
      match decode_value fuel' depth s with
      | Got (v, s1) =>
          match skip_ws s1 with
          | String "]" rest => Got (acc ++ [v], rest)
          | String "," s2 => decode_elements fuel' depth (acc ++ [v]) (skip_ws s2)
          | _ => Fail JSONDecodeError
          end
      | Fail e => Fail e
      | Beyond => Beyond
      end
  end.

(** [json.loads]: one value, white space around it, and nothing else. *)
Definition loads (s : string) : result pyval :=
  match decode_value (2 * String.length s + 2) max_depth (skip_ws s) with
  | Got (v, rest) =>
      match skip_ws rest with
      | EmptyString => Got v
      | _ => Fail JSONDecodeError
      end
  | Fail e => Fail e
  | Beyond => Beyond
  end.

(** Reading the members of an object stores them one by one, in order. *)
Definition store_all (d acc : pydict) : pydict :=
  fold_left (fun a kv => dict_store (fst kv) (snd kv) a) d acc.

(** A character that follows a value inside an indented container. *)
Definition delimiter (c : ascii) : Prop := c = ","%char \/ c = newline.

(** An integer, or a bool, that the encoder writes. *)
Definition int_atom (v : pyval) : Prop :=
  exists z, int_value v = Some z /\ exceeds_digit_limit z = false.

(** The text of an integer or of a bool in JSON. *)
Definition atom_text (v : pyval) : string :=
  match v with
  | PBool true => "true"
  | PBool false => "false"
  | PInt Z0 => "0"
  | PInt (Z.pos p) => NilEmpty.string_of_uint (Pos.to_uint p)
  | PInt (Z.neg p) => String "-" (NilEmpty.string_of_uint (Pos.to_uint p))
  | _ => ""
  end.

(** The codec that follows the model where it speaks.  Elsewhere, and for the
    text that is in the file when [json.dump] raises, it follows functions
    that stand for the interpreter, about which nothing is assumed. *)
Section Codec.
Variable interpreter_dump : pyval -> nat -> string * outcome unit.
Variable interpreter_loads : string -> option pyval.
Variable interpreter_load_error : string -> exn.

Definition codec : JsonCodec := {|
  json_dump v indent :=
    match dumps v indent with
    | Got text => (text, Return tt)
    | Fail e => (fst (interpreter_dump v indent), Raise e)
    | Beyond => interpreter_dump v indent
    end;
  json_loads s :=
    match loads s with
    | Got v => Some v
    | Fail _ => None
    | Beyond => interpreter_loads s
    end;
  json_load_error s :=
    match loads s with
    | Fail e => e
    | _ => interpreter_load_error s
    end
|}.

End Codec.

End PyJson.

(** The codec of the examples: it fails wherever [PyJson] does not speak.  The
    examples stay inside what [PyJson] covers. *)
#[global] Instance covered_json : JsonCodec :=
  PyJson.codec (fun _ _ => ("", Raise RecursionError)) (fun _ => None) (fun _ => ValueError).

(** ** Predicates of the specification *)

(** The quantity stored in an entry is a number at most [th]. *)
Definition quantity_at_most (th : Z) (kv : string * pyval) : bool :=
  match int_value (snd kv) with
  | Some x => Z.leb x th
  | None => false
  end.

(** Every value of the dict is an integer. *)
Definition int_valued (d : pydict) : Prop :=
  Forall (fun kv => is_Some (int_value (snd kv))) d.

(** Every value of the dict is an integer above zero. *)
Definition all_positive (d : pydict) : bool :=
  forallb (fun kv => match int_value (snd kv) with Some x => Z.ltb 0 x | None => false end) d.

(** [open(file, "w")] succeeds: the path names a file, or nothing yet in a
    directory that exists. *)
Definition writable (w : world) (file : string) : Prop :=
  files w !! file = None \/ exists text, files w !! file = Some (File text).

(** Every integer of the dict is within the limit on digits, so that it can
    be written as text. *)
Definition digits_within_limit (d : pydict) : Prop :=
  Forall (fun kv => match int_value (snd kv) with
                    | Some z => exceeds_digit_limit z = false
                    | None => True
                    end) d.

(** Appends the texts of a list, in order. *)
Fixpoint concat_text (l : list string) : string :=
  match l with
  | [] => ""
  | x :: l' => x +:+ concat_text l'
  end.

(** The line [print_data] writes for an item, from the text of its
    quantity. *)
Definition report_line (item qty_text : string) : string :=
  item +:+ ": " +:+ qty_text +:+ String newline "".

(** The heading of the report, after an empty line. *)
Definition report_heading : string :=
  String newline "--- Items Report ---" +:+ String newline "".

(** The whole report, from the texts of the quantities: the heading, the
    entries or the notice that there is none, the rule and an empty line. *)
Definition report_text (names texts : list string) : string :=
  report_heading +:+
  match names with
  | [] => "Inventory is empty." +:+ String newline ""
  | _ => concat_text (zip_with report_line names texts)
  end +:+
  "--------------------" +:+ String newline (String newline "").

(** What [remove_item] leaves in the stock, case by case. *)
Definition stock_after_remove (item : string) (qty : pyval) (d : pydict) : pydict :=
  match dict_lookup item d with
  | None => d
  | Some old =>
      match old, qty with
      | PSet l, PSet m =>
          dict_store item (PSet (List.filter (fun x => negb (set_member x m)) l)) d
      | _, _ =>
          match int_value old, int_value qty with
          | Some x, Some q =>
              if Z.leb (x - q) 0 then dict_remove item d
              else dict_store item (PInt (x - q)) d
          | _, _ => d
          end
      end
  end.

(** ** Facts about the primitives *)

Lemma dict_lookup_store_eq k v d : dict_lookup k (dict_store k v d) = Some v.
Proof.
  induction d as [|[k' v'] d IH]; simpl.
  - by rewrite String.eqb_refl.
  - destruct (String.eqb k k') eqn:E; simpl; rewrite E; auto.
Qed.

Lemma dict_lookup_store_ne k k' v d :
  k' <> k -> dict_lookup k' (dict_store k v d) = dict_lookup k' d.
Proof.
  intros Hne. induction d as [|[k0 v0] d IH]; simpl.
  - apply String.eqb_neq in Hne. by rewrite Hne.
  - destruct (String.eqb k k0) eqn:E; simpl.
    + apply String.eqb_eq in E; subst k0.
      apply String.eqb_neq in Hne. by rewrite Hne.
    + by rewrite IH.
Qed.

Lemma dict_lookup_remove_eq k d : dict_lookup k (dict_remove k d) = None.
Proof.
  induction d as [|[k' v'] d IH]; simpl; auto.
  destruct (String.eqb k k') eqn:E; simpl; auto. by rewrite E.
Qed.

Lemma dict_lookup_remove_ne k k' d :
  k' <> k -> dict_lookup k' (dict_remove k d) = dict_lookup k' d.
Proof.
  intros Hne. induction d as [|[k0 v0] d IH]; simpl; auto.
  destruct (String.eqb k k0) eqn:E; simpl.
  - apply String.eqb_eq in E; subst k0.
    apply String.eqb_neq in Hne. by rewrite Hne.
  - by rewrite IH.
Qed.

Lemma dict_remove_store k v d : dict_remove k (dict_store k v d) = dict_remove k d.
Proof.
  induction d as [|[k' v'] d IH]; simpl.
  - by rewrite String.eqb_refl.
  - destruct (String.eqb k k') eqn:E; simpl; rewrite E; simpl; auto.
    by rewrite <- IH.
Qed.

(** A store keeps the keys where they are, and adds a new key at the end. *)
Lemma dict_store_keys k v d :
  map fst (dict_store k v d) =
  match dict_lookup k d with
  | Some _ => map fst d
  | None => map fst d ++ [k]
  end.
Proof.
  induction d as [|[k' v'] d IH]; simpl; auto.
  destruct (String.eqb k k') eqn:E; simpl; auto.
  rewrite IH. by destruct (dict_lookup k d).
Qed.

Lemma dict_lookup_None_keys k d : dict_lookup k d = None -> ~ In k (map fst d).
Proof.
  induction d as [|[k' v'] d IH]; simpl; auto.
  destruct (String.eqb k k') eqn:E; [done|].
  intros Hn [Hk|Hk]; [|by apply IH].
  subst. by rewrite String.eqb_refl in E.
Qed.

Lemma dict_store_fresh (k : string) (v : pyval) (d : pydict) :
  ~ In k (map fst d) -> dict_store k v d = d ++ [(k, v)].
Proof.
  induction d as [|[k' v'] d IH]; [done|]. cbn [map fst In]. intros Hk. simpl.
  destruct (String.eqb k k') eqn:E.
  - apply String.eqb_eq in E. subst. tauto.
  - rewrite IH; [done|tauto].
Qed.

Lemma dict_store_wf k v d : dict_wf d -> dict_wf (dict_store k v d).
Proof.
  unfold dict_wf. rewrite dict_store_keys.
  destruct (dict_lookup k d) eqn:E; auto.
  intros Hd. apply NoDup_app. split_and!; auto.
  - intros x Hx Hk. apply list_elem_of_singleton in Hk. subst x.
    apply list_elem_of_In in Hx. by apply dict_lookup_None_keys in E.
  - apply NoDup_singleton.
Qed.

Lemma dict_remove_wf k d : dict_wf d -> dict_wf (dict_remove k d).
Proof.
  unfold dict_wf, dict_remove. induction d as [|[k' v'] d IH]; simpl; auto.
  intros Hd. apply NoDup_cons in Hd as [Hk Hd].
  destruct (negb (String.eqb k k')); simpl; auto.
  apply NoDup_cons. split; auto.
  intros Hin. apply Hk.
  apply list_elem_of_fmap in Hin as [[k0 v0] [-> Hin]].
  apply list_elem_of_In, List.filter_In in Hin as [Hin _].
  apply list_elem_of_fmap. exists (k0, v0). split; auto. by apply list_elem_of_In.
Qed.

Lemma int_value_isinstance v x : int_value v = Some x -> isinstance_int v = true.
Proof. by destruct v. Qed.

Lemma py_add_int a b x y :
  int_value a = Some x -> int_value b = Some y -> py_add a b = Return (PInt (x + y)).
Proof. destruct a, b; simpl; try done; intros [= <-] [= <-]; done. Qed.

Lemma py_sub_int a b x y :
  int_value a = Some x -> int_value b = Some y -> py_sub a b = Return (PInt (x - y)).
Proof. destruct a, b; simpl; try done; intros [= <-] [= <-]; done. Qed.

(** Subtraction is defined on two numbers and on two sets, and on nothing
    else. *)
Lemma py_sub_raises a b :
  int_value a = None \/ int_value b = None ->
  is_set a = false \/ is_set b = false ->
  py_sub a b = Raise TypeError.
Proof. destruct a, b; simpl; intros [?|?] [?|?]; done. Qed.

Lemma py_le_int a b x y :
  int_value a = Some x -> int_value b = Some y -> py_le a b = Return (Z.leb x y).
Proof. destruct a, b; simpl; try done; intros [= <-] [= <-]; done. Qed.

Lemma dict_lookup_In k v d : dict_wf d -> In (k, v) d -> dict_lookup k d = Some v.
Proof.
  unfold dict_wf. induction d as [|[k' v'] d IH]; [done|].
  cbn [map fst]. intros Hwf%NoDup_cons. destruct Hwf as [Hk Hwf].
  intros [[= -> ->] | Hin]; simpl.
  - by rewrite String.eqb_refl.
  - destruct (String.eqb k k') eqn:E; [|by apply IH].
    apply String.eqb_eq in E. subst k'. exfalso. apply Hk.
    apply list_elem_of_In. change k with (fst (k, v)). by apply in_map.
Qed.

Lemma dict_lookup_not_In k d : ~ In k (map fst d) -> dict_lookup k d = None.
Proof.
  induction d as [|[k' v'] d IH]; [done|]. cbn [map fst In]. intros Hk. simpl.
  destruct (String.eqb k k') eqn:E; [|apply IH; tauto].
  apply String.eqb_eq in E. subst. tauto.
Qed.

(** The text of a number: an [int] has one up to the limit on digits. *)
Lemma py_str_int (qty : pyval) (q : Z) :
  int_value qty = Some q ->
  exists text,
    py_str qty = if exceeds_digit_limit q then Raise ValueError else Return text.
Proof.
  destruct qty as [|b|z| | | |]; try done; intros [= <-].
  - destruct b; eexists; reflexivity.
  - exists (NilZero.string_of_int (Z.to_int z)). reflexivity.
Qed.

(** ** The operations on the stock *)

#[local] Arguments dict_remove : simpl never.
#[local] Arguments dict_store : simpl never.
#[local] Arguments dict_lookup : simpl never.

(** Unfolds one run of the monad down to the primitives. *)
Ltac run :=
  cbv [add_item remove_item get_qty check_low_items load_data save_data
       try_except mbind M_bind mret M_ret lift raise arg from_option id
       dict_get dict_getitem dict_setitem dict_delitem dict_items logging
       list_new list_append datetime_now open_read open_write file_write].

(** C1. When [item] is in the stock with an integer quantity [x] and [qty] is
    an integer [q], [remove_item] returns normally; if [x - q <= 0] the key is
    deleted (one informational record is emitted), otherwise the key holds
    [x - q]; no other key changes. *)
Theorem remove_item_decrements_or_deletes
    (w : world) (item : string) (qty old : pyval) (x q : Z) :
  dict_lookup item (stock w) = Some old ->
  int_value old = Some x ->
  int_value qty = Some q ->
  (exists fmt args,
     remove_item item qty w =
     (Return tt,
      if (x - q <=? 0)%Z
      then set_emitted (emitted w ++ [LogRecord INFO fmt args])
             (set_stock (dict_remove item (stock w)) w)
      else set_stock (dict_store item (PInt (x - q)) (stock w)) w)) /\
  dict_lookup item (stock (snd (remove_item item qty w))) =
    (if (x - q <=? 0)%Z then None else Some (PInt (x - q))) /\
  (forall k, k <> item ->
     dict_lookup k (stock (snd (remove_item item qty w))) = dict_lookup k (stock w)).
Proof.
  intros Hold Hx Hq.
  assert (Hrun : remove_item item qty w =
    (Return tt,
      if (x - q <=? 0)%Z
      then set_emitted (emitted w ++
             [LogRecord INFO "Removed item '%s' from stock (quantity was <= 0)."
                [ArgVal (PStr item)]])
             (set_stock (dict_remove item (stock w)) w)
      else set_stock (dict_store item (PInt (x - q)) (stock w)) w)).
  { run. rewrite Hold, (py_sub_int _ _ _ _ Hx Hq). cbn.
    rewrite dict_lookup_store_eq. cbn.
    destruct (x - q <=? 0)%Z; cbn; [|done].
    rewrite dict_lookup_store_eq. cbn. by rewrite dict_remove_store. }
  split; [eauto|]. rewrite Hrun. cbn.
  destruct (x - q <=? 0)%Z; cbn; split.
  - apply dict_lookup_remove_eq.
  - intros k Hk. by apply dict_lookup_remove_ne.
  - apply dict_lookup_store_eq.
  - intros k Hk. by apply dict_lookup_store_ne.
Qed.

(** Removing 10 from a stock that holds 10 apples leaves the empty dict. *)
Lemma remove_item_decrements_or_deletes_witness :
  stock (snd (remove_item "apple" (PInt 10)
                (World [("apple", PInt 10)] [] [] ∅ ""))) = [].
Proof.
  destruct (remove_item_decrements_or_deletes
              (World [("apple", PInt 10)] [] [] ∅ "") "apple" (PInt 10) (PInt 10) 10 10
              eq_refl eq_refl eq_refl) as [(fmt & args & E) _].
  rewrite E. reflexivity.
Defined.

(** C5, as it holds. When [item] is not in the stock, or the stored value
    and [qty] cannot be subtracted (one of them is not a number, and they are
    not two sets), [remove_item] returns normally and changes nothing but the
    log: it emits one record, a warning for the missing key and an error
    otherwise. *)
Theorem remove_item_rejects (w : world) (item : string) (qty : pyval) :
  dict_lookup item (stock w) = None \/
  (exists old, dict_lookup item (stock w) = Some old /\
               (int_value old = None \/ int_value qty = None) /\
               (is_set old = false \/ is_set qty = false)) ->
  (exists fmt args,
     remove_item item qty w =
     (Return tt,
      set_emitted
        (emitted w ++
         [LogRecord (match dict_lookup item (stock w) with
                     | None => WARNING
                     | Some _ => ERROR
                     end) fmt args]) w)) /\
  stock (snd (remove_item item qty w)) = stock w.
Proof.
  intros [Hnone | (old & Hold & Hbad & Hset)].
  - assert (E : remove_item item qty w =
      (Return tt, set_emitted (emitted w ++
         [LogRecord WARNING "Failed to remove item '%s': Item not found in stock."
            [ArgVal (PStr item)]]) w)).
    { run. by rewrite Hnone. }
    rewrite Hnone. split; [eauto|]. by rewrite E.
  - assert (E : remove_item item qty w =
      (Return tt, set_emitted (emitted w ++
         [LogRecord ERROR "Failed to remove item '%s': Invalid quantity or stock value."
            [ArgVal (PStr item)]]) w)).
    { run. by rewrite Hold, (py_sub_raises _ _ Hbad Hset). }
    rewrite Hold. split; [eauto|]. by rewrite E.
Qed.

Lemma remove_item_rejects_witness :
  stock (snd (remove_item "orange" (PInt 1)
                (World [("apple", PInt 7)] [] [] ∅ ""))) = [("apple", PInt 7)] /\
  stock (snd (remove_item "apple" (PStr "one")
                (World [("apple", PInt 7)] [] [] ∅ ""))) = [("apple", PInt 7)].
Proof.
  split.
  - apply (remove_item_rejects (World [("apple", PInt 7)] [] [] ∅ "") "orange" (PInt 1)).
    left. reflexivity.
  - apply (remove_item_rejects (World [("apple", PInt 7)] [] [] ∅ "") "apple" (PStr "one")).
    right. exists (PInt 7).
    split; [reflexivity | split; [right; reflexivity | left; reflexivity]].
Defined.

(** C5, as stated, fails when the stored value and [qty] are two sets: the
    subtraction succeeds and the difference is stored, and only then does the
    comparison with 0 raise the [TypeError] that is logged as an error.  The
    stored value is not a number, the error is signalled, and the mapping has
    changed. *)
Lemma remove_item_stores_before_error :
  let w := World [("apple", PSet [PInt 1; PInt 2])] [] [] ∅ "" in
  dict_lookup "apple" (stock w) = Some (PSet [PInt 1; PInt 2]) /\
  int_value (PSet [PInt 1; PInt 2]) = None /\
  remove_item "apple" (PSet [PInt 1]) w =
    (Return tt,
     set_emitted
       [LogRecord ERROR "Failed to remove item '%s': Invalid quantity or stock value."
          [ArgVal (PStr "apple")]]
       (set_stock [("apple", PSet [PInt 2])] w)) /\
  stock (snd (remove_item "apple" (PSet [PInt 1]) w)) <> stock w.
Proof.
  cbv zeta. split_and!; [reflexivity | reflexivity | reflexivity |].
  vm_compute. discriminate.
Qed.

Lemma get_qty_run (w : world) (item : string) :
  get_qty item w =
  (Return (match dict_lookup item (stock w) with
           | Some v => v
           | None => PInt 0
           end), w).
Proof. run. by destruct (dict_lookup item (stock w)). Qed.

(** C8. [get_qty] always returns normally and leaves the world as it is; it
    yields the value the stock holds for the name, and 0 when the name is not
    a key of the stock. *)
Theorem get_qty_total (w : world) (item : string) :
  (exists v, get_qty item w = (Return v, w)) /\
  (forall v, dict_wf (stock w) -> In (item, v) (stock w) ->
     get_qty item w = (Return v, w)) /\
  (~ In item (map fst (stock w)) -> get_qty item w = (Return (PInt 0), w)).
Proof.
  rewrite get_qty_run. split_and!.
  - eauto.
  - intros v Hwf Hin. by rewrite (dict_lookup_In _ _ _ Hwf Hin).
  - intros Hout. by rewrite (dict_lookup_not_In _ _ Hout).
Qed.

Lemma get_qty_total_witness :
  get_qty "pear" (World [("apple", PInt 3); ("pear", PInt 4)] [] [] ∅ "") =
    (Return (PInt 4), World [("apple", PInt 3); ("pear", PInt 4)] [] [] ∅ "") /\
  get_qty "kiwi" (World [("apple", PInt 3); ("pear", PInt 4)] [] [] ∅ "") =
    (Return (PInt 0), World [("apple", PInt 3); ("pear", PInt 4)] [] [] ∅ "").
Proof.
  split.
  - apply (proj1 (proj2 (get_qty_total
                           (World [("apple", PInt 3); ("pear", PInt 4)] [] [] ∅ "") "pear"))).
    + unfold dict_wf. cbn [stock map fst]. apply NoDup_cons_2; [|apply NoDup_singleton].
      intros Hin. apply list_elem_of_singleton in Hin. discriminate.
    + right. left. reflexivity.
  - apply (proj2 (proj2 (get_qty_total
                           (World [("apple", PInt 3); ("pear", PInt 4)] [] [] ∅ "") "kiwi"))).
    intros [H | [H | []]]; discriminate.
Defined.

(** What [add_item] does when it accepts its arguments: the exact final
    world.  The quantity is stored before its text is made, so the store is
    kept when the text cannot be made. *)
Lemma add_item_run (w : world) (item : string) (qty : pyval) (logs : option nat) (q prior : Z) :
  item <> "" ->
  int_value qty = Some q ->
  int_value (match dict_lookup item (stock w) with Some v => v | None => PInt 0 end)
    = Some prior ->
  add_item (Some item) (Some qty) logs w =
  match py_str qty with
  | Return qty_text =>
      (Return tt,
       World (dict_store item (PInt (prior + q)) (stock w))
         (let entry := clock w +:+ ": " +:+ "Added " +:+ qty_text +:+ " of " +:+ item in
          match logs with
          | Some r => <[r := from_option id [] (lists w !! r) ++ [entry]]> (lists w)
          | None => lists w ++ [[entry]]
          end)
         (emitted w ++ [LogRecord INFO "Added %d of %s" [ArgVal qty; ArgVal (PStr item)]])
         (files w) (clock w))
  | Raise e =>
      (Raise e,
       World (dict_store item (PInt (prior + q)) (stock w))
         (match logs with
          | Some _ => lists w
          | None => lists w ++ [[]]
          end)
         (emitted w) (files w) (clock w))
  end.
Proof.
  intros Hitem Hq Hprior. apply String.eqb_neq in Hitem.
  run. destruct logs as [r|]; cbn; rewrite Hitem, (int_value_isinstance _ _ Hq); cbn;
    rewrite (py_add_int _ _ _ _ Hprior Hq); cbn;
    destruct (py_str qty) as [qty_text|e]; cbn; try done.
  unfold set_emitted, set_lists, set_stock. cbn. do 2 f_equal.
  rewrite lookup_app_r, Nat.sub_diag by done. cbn.
  by rewrite insert_app_r_alt, Nat.sub_diag by done.
Qed.

(** The outcome of an accepted [add_item] and the stock it leaves. *)
Lemma add_item_accepts (w : world) (item : string) (qty : pyval) (logs : option nat) (q prior : Z) :
  item <> "" ->
  int_value qty = Some q ->
  int_value (match dict_lookup item (stock w) with Some v => v | None => PInt 0 end)
    = Some prior ->
  exists w',
    add_item (Some item) (Some qty) logs w =
      (if exceeds_digit_limit q then Raise ValueError else Return tt, w') /\
    stock w' = dict_store item (PInt (prior + q)) (stock w) /\
    files w' = files w.
Proof.
  intros Hitem Hq Hprior.
  rewrite (add_item_run w item qty logs q prior Hitem Hq Hprior).
  destruct (py_str_int qty q Hq) as [text ->].
  destruct (exceeds_digit_limit q); eauto.
Qed.

(** The stock an accepted [add_item] leaves, whether it then returns or
    raises. *)
Lemma add_item_stock (w : world) (item : string) (qty : pyval) (logs : option nat) (q prior : Z) :
  item <> "" ->
  int_value qty = Some q ->
  int_value (match dict_lookup item (stock w) with Some v => v | None => PInt 0 end)
    = Some prior ->
  stock (snd (add_item (Some item) (Some qty) logs w)) =
  dict_store item (PInt (prior + q)) (stock w).
Proof.
  intros Hitem Hq Hprior.
  by destruct (add_item_accepts w item qty logs q prior Hitem Hq Hprior)
    as (w' & -> & Hstock & _).
Qed.

(** C2. For a non-empty name and an integer [qty], when the stock holds an
    integer for the name or nothing, the stock [add_item] leaves is such that
    [get_qty] returns the quantity [get_qty] returned before, plus [qty].
    [add_item] returns normally, except that an integer of more digits than
    the interpreter converts to text makes it raise [ValueError] from the line
    that formats the log entry, which comes after the store. *)
Theorem add_item_then_get_qty
    (w : world) (item : string) (qty old : pyval) (logs : option nat) (q prior : Z) :
  item <> "" ->
  int_value qty = Some q ->
  fst (get_qty item w) = Return old ->
  int_value old = Some prior ->
  fst (add_item (Some item) (Some qty) logs w) =
    (if exceeds_digit_limit q then Raise ValueError else Return tt) /\
  fst (get_qty item (snd (add_item (Some item) (Some qty) logs w))) =
    Return (PInt (prior + q)).
Proof.
  intros Hitem Hq Hold Hprior.
  rewrite get_qty_run in Hold. cbn in Hold. injection Hold as Hold. subst old.
  destruct (add_item_accepts w item qty logs q prior Hitem Hq Hprior)
    as (w' & -> & Hstock & _).
  split; [done|]. rewrite get_qty_run. cbn [fst snd].
  by rewrite Hstock, dict_lookup_store_eq.
Qed.

Lemma add_item_then_get_qty_witness :
  (fst (add_item (Some "apple") (Some (PInt 5)) None
          (World [("apple", PInt 10)] [] [] ∅ "")) = Return tt /\
   fst (get_qty "apple"
          (snd (add_item (Some "apple") (Some (PInt 5)) None
                  (World [("apple", PInt 10)] [] [] ∅ "")))) = Return (PInt 15)) /\
  fst (get_qty "pear"
         (snd (add_item (Some "pear") (Some (PInt 2)) None
                 (World [("apple", PInt 10)] [] [] ∅ "")))) = Return (PInt 2).
Proof.
  split.
  - apply (add_item_then_get_qty (World [("apple", PInt 10)] [] [] ∅ "")
             "apple" (PInt 5) (PInt 10) None 5 10); [discriminate | reflexivity..].
  - apply (add_item_then_get_qty (World [("apple", PInt 10)] [] [] ∅ "")
             "pear" (PInt 2) (PInt 0) None 2 0); [discriminate | reflexivity..].
Defined.



(** C9. [add_item] accepts any integer for a non-empty name, negative ones
    too: the key then holds the prior quantity plus [qty], whatever its sign,
    and stays in the stock (the call returns normally unless the integer has
    more digits than the interpreter converts to text).  So a stock whose
    quantities are all above zero can be taken by [add_item] to one that
    stores a quantity at or below zero, which [remove_item] would have
    deleted. *)
Theorem add_item_stores_nonpositive :
  (forall (w : world) (item : string) (qty : pyval) (logs : option nat) (q prior : Z),
     item <> "" ->
     int_value qty = Some q ->
     int_value (match dict_lookup item (stock w) with Some v => v | None => PInt 0 end)
       = Some prior ->
     fst (add_item (Some item) (Some qty) logs w) =
       (if exceeds_digit_limit q then Raise ValueError else Return tt) /\
     dict_lookup item (stock (snd (add_item (Some item) (Some qty) logs w))) =
       Some (PInt (prior + q))) /\
  (exists (w : world) (item : string) (q : Z),
     (q < 0)%Z /\
     all_positive (stock w) = true /\
     fst (add_item (Some item) (Some (PInt q)) None w) = Return tt /\
     all_positive (stock (snd (add_item (Some item) (Some (PInt q)) None w))) = false /\
     dict_lookup item (stock (snd (add_item (Some item) (Some (PInt q)) None w))) =
       Some (PInt 0) /\
     dict_lookup item (stock (snd (remove_item item (PInt (- q)) w))) = None).
Proof.
  split.
  - intros w item qty logs q prior Hitem Hq Hprior.
    destruct (add_item_accepts w item qty logs q prior Hitem Hq Hprior)
      as (w' & -> & Hstock & _).
    split; [done|]. cbn. by rewrite Hstock, dict_lookup_store_eq.
  - exists (World [("apple", PInt 10)] [] [] ∅ ""), "apple", (-10)%Z.
    repeat split; reflexivity.
Qed.

Lemma add_item_stores_nonpositive_witness :
  fst (add_item (Some "apple") (Some (PInt (-12))) None
         (World [("apple", PInt 10)] [] [] ∅ "")) = Return tt /\
  dict_lookup "apple"
    (stock (snd (add_item (Some "apple") (Some (PInt (-12))) None
                   (World [("apple", PInt 10)] [] [] ∅ "")))) = Some (PInt (-2)).
Proof.
  apply (proj1 add_item_stores_nonpositive (World [("apple", PInt 10)] [] [] ∅ "")
           "apple" (PInt (-12)) None (-12) 10); [discriminate | reflexivity..].
Defined.

Lemma bind_returns {A B} (m : M A) (f : A -> M B) (w w' : world) (a : A) :
  m w = (Return a, w') -> (m ≫= f) w = f a w'.
Proof. unfold mbind, M_bind. by intros ->. Qed.

(** The loop of [check_low_items] over integer quantities: it appends, in
    order, the names whose quantity is at most the threshold. *)
Lemma low_items_loop (threshold : pyval) (th : Z) (items : pydict) (acc : list string) (w : world) :
  int_value threshold = Some th ->
  int_valued items ->
  for_each items
    (fun result '(item, qty) =>
       low ← lift (py_le qty threshold);
       if low : bool then mret (result ++ [item]) else mret result)
    acc w
  = (Return (acc ++ map fst (List.filter (quantity_at_most th) items)), w).
Proof.
  intros Hth Hint. revert acc.
  induction Hint as [|[item qty] items [x Hx] _ IH]; intros acc; cbn [for_each].
  - cbn. by rewrite app_nil_r.
  - cbn [snd] in Hx.
    cbn [List.filter]. unfold quantity_at_most at 1. cbn [snd]. rewrite Hx.
    destruct (x <=? th)%Z eqn:Hle.
    + rewrite (bind_returns _ _ w w (acc ++ [item])).
      * rewrite IH. cbn [map fst]. by rewrite <- app_assoc.
      * unfold mbind, M_bind, lift. by rewrite (py_le_int _ _ _ _ Hx Hth), Hle.
    + rewrite (bind_returns _ _ w w acc).
      * by rewrite IH.
      * unfold mbind, M_bind, lift. by rewrite (py_le_int _ _ _ _ Hx Hth), Hle.
Qed.

(** C7. On a stock of integer quantities and for an integer threshold,
    [check_low_items] returns normally, changes nothing, and yields exactly the
    names whose quantity is at most the threshold, in the order of the dict;
    called without a threshold it uses 5. *)
Theorem check_low_items_lists_low_stock (w : world) (threshold : pyval) (th : Z) :
  int_value threshold = Some th ->
  int_valued (stock w) ->
  check_low_items (Some threshold) w =
    (Return (map fst (List.filter (quantity_at_most th) (stock w))), w) /\
  check_low_items None w = check_low_items (Some (PInt 5)) w.
Proof.
  intros Hth Hint. split; [|reflexivity].
  unfold check_low_items, arg, from_option, id.
  rewrite (bind_returns _ _ w w (stock w)) by reflexivity.
  by rewrite (low_items_loop _ th _ [] w Hth Hint).
Qed.

Lemma check_low_items_witness :
  check_low_items (Some (PInt 5))
    (World [("a", PInt 1); ("b", PInt 6); ("c", PInt 5)] [] [] ∅ "") =
  (Return ["a"; "c"], World [("a", PInt 1); ("b", PInt 6); ("c", PInt 5)] [] [] ∅ "").
Proof.
  apply (check_low_items_lists_low_stock
           (World [("a", PInt 1); ("b", PInt 6); ("c", PInt 5)] [] [] ∅ "") (PInt 5) 5).
  - reflexivity.
  - repeat constructor; eexists; reflexivity.
Defined.

(** ** Loading and saving *)

Section Persistence.
Context {codec : JsonCodec}.


(** What [load_data] does when the file cannot be opened or read, or its text
    cannot be parsed, for a reason it has no handler for: the exception
    reaches the caller, and nothing is logged. *)
Lemma load_data_raises (w : world) (file : string) :
  load_data (Some file) w =
  match files w !! file with
  | Some Dir => (Raise IsADirectoryError, w)
  | Some UnderFile => (Raise NotADirectoryError, w)
  | Some Denied => (Raise PermissionError, w)
  | Some Undecodable => (Raise UnicodeDecodeError, w)
  | _ => load_data (Some file) w
  end.
Proof.
  destruct (files w !! file) as [[]|] eqn:Hf; try done; run; by rewrite Hf.
Qed.

(** What [load_data] does with a file whose text parses. *)
Lemma load_data_parses (w : world) (file text : string) (v : pyval) :
  files w !! file = Some (File text) ->
  json_loads text = Some v ->
  load_data (Some file) w =
  (Return v,
   set_emitted
     (emitted w ++
      [LogRecord INFO "Data loaded successfully from %s." [ArgVal (PStr file)]]) w).
Proof.
  intros Hf Hv. run. rewrite Hf. cbn. by rewrite Hv.
Qed.

(** C10. Whatever value the text of the file parses to, a dict or not,
    [load_data] returns that very value and emits one informational record: it
    does not check the shape of what it loads. *)
Theorem load_data_returns_parsed_value (w : world) (file text : string) (v : pyval) :
  files w !! file = Some (File text) ->
  json_loads text = Some v ->
  exists fmt args,
    load_data (Some file) w =
    (Return v, set_emitted (emitted w ++ [LogRecord INFO fmt args]) w).
Proof.
  intros Hf Hv. rewrite (load_data_parses w file text v Hf Hv). eauto.
Qed.

(** What [save_data] does at a path that can be opened for writing: the file
    is emptied and takes the text [json.dump] writes, all of it when
    [json.dump] returns and the part written so far when it raises. An
    exception of [json.dump] is logged if it is an [OSError] and reaches the
    caller otherwise. *)
Lemma save_data_run (w : world) (file : string) :
  writable w file ->
  save_data (Some file) w =
  let written := json_dump (PDict (stock w)) 4 in
  let w' := set_files (<[file := File (fst written)]> (files w)) w in
  match snd written with
  | Return _ =>
      (Return tt,
       set_emitted
         (emitted w ++
          [LogRecord INFO "Data saved successfully to %s." [ArgVal (PStr file)]]) w')
  | Raise e =>
      if exn_isa e OSError
      then (Return tt,
            set_emitted
              (emitted w ++
               [LogRecord ERROR "Could not write to file '%s': %s"
                  [ArgVal (PStr file); ArgExn e]]) w')
      else (Raise e, w')
  end.
Proof.
  intros Hw. run.
  assert (Hopen : match files w !! file with
                  | Some (File _) | None => True
                  | _ => False
                  end).
  { destruct Hw as [-> | [text ->]]; done. }
  destruct (files w !! file) as [[]|] eqn:Hf; try done; cbn;
    rewrite lookup_insert_eq; cbn; rewrite insert_insert_eq;
    change ("" +:+ ?t) with t;
    (destruct (snd (json_dump (PDict (stock w)) 4)) as [[]|e]; cbn; [done|]);
    by destruct e.
Qed.

(** With any JSON library that writes a text for the stock and reads the stock
    back from that text, [save_data] to a writable path followed by
    [load_data] from it returns the stock. *)
Lemma save_then_load_reads_back (w : world) (file text : string) :
  writable w file ->
  json_dump (PDict (stock w)) 4 = (text, Return tt) ->
  json_loads text = Some (PDict (stock w)) ->
  fst (save_data (Some file) w) = Return tt /\
  fst (load_data (Some file) (snd (save_data (Some file) w))) = Return (PDict (stock w)).
Proof.
  intros Hw Hdump Hrt.
  rewrite (save_data_run w file Hw), Hdump. cbn [fst snd].
  split; [done|].
  rewrite (load_data_parses _ file text (PDict (stock w))); [done | | done].
  cbn. by rewrite lookup_insert_eq.
Qed.

End Persistence.

(** ** The reference codec reads back what it writes *)

Module PyJsonFacts.
Import PyJson.

Lemma append_nil (s : string) : "" +:+ s = s.
Proof. reflexivity. Qed.

Lemma append_cons (c : ascii) (a b : string) : String c a +:+ b = String c (a +:+ b).
Proof. reflexivity. Qed.

Lemma append_assoc (a b c : string) : (a +:+ b) +:+ c = a +:+ (b +:+ c).
Proof.
  induction a as [|x a IH]; [done|]. by rewrite !append_cons, IH.
Qed.

Lemma length_append (a b : string) :
  String.length (a +:+ b) = (String.length a + String.length b)%nat.
Proof.
  induction a as [|x a IH]; [done|]. rewrite append_cons. simpl. by rewrite IH.
Qed.

Lemma skip_ws_spaces (n : nat) (s : string) : skip_ws (spaces n +:+ s) = skip_ws s.
Proof. induction n as [|n IH]; [done|]. cbn [spaces]. by rewrite append_cons. Qed.

Lemma skip_ws_newline_indent (indent level : nat) (s : string) :
  skip_ws (newline_indent indent level +:+ s) = skip_ws s.
Proof. unfold newline_indent. rewrite append_cons. apply skip_ws_spaces. Qed.

(** One encoded character is read back as that character. *)
Lemma scan_string_encode_char (c : ascii) (k : string) :
  scan_string (encode_char c +:+ k) = cons_char c (scan_string k).
Proof.
  destruct c as [[] [] [] [] [] [] [] []]; reflexivity.
Qed.

Lemma scan_string_encode_chars (s rest : string) :
  scan_string (encode_chars s +:+ String quote rest) = Got (s, rest).
Proof.
  induction s as [|c s IH]; [reflexivity|].
  cbn [encode_chars]. rewrite append_assoc, scan_string_encode_char, IH. reflexivity.
Qed.

Lemma scan_digits_string (u : Decimal.uint) (c : ascii) (rest : string) :
  delimiter c ->
  scan_digits (NilEmpty.string_of_uint u +:+ String c rest) = (u, String c rest).
Proof.
  intros Hc. induction u; cbn [NilEmpty.string_of_uint];
    rewrite ?append_cons, ?append_nil; cbn [scan_digits digit Ascii.eqb Bool.eqb];
    rewrite ?IHu; try reflexivity.
  by destruct Hc as [-> | ->].
Qed.

Lemma to_uint_no_leading_zero (p : positive) (u : Decimal.uint) :
  Pos.to_uint p <> Decimal.D0 u.
Proof.
  intros Hp.
  assert (Hn : Decimal.unorm (Pos.to_uint p) = Pos.to_uint p).
  { rewrite <- DecimalPos.Unsigned.to_of, DecimalPos.Unsigned.of_to. reflexivity. }
  unfold Decimal.unorm in Hn.
  destruct (Decimal.nzhead (Pos.to_uint p)) eqn:Hz;
    try (rewrite Hp in Hn; discriminate).
  - symmetry in Hn. by apply DecimalPos.Unsigned.to_uint_nonzero in Hn.
  - by apply DecimalFacts.nzhead_nonzero in Hz.
Qed.

Lemma of_to_uint (p : positive) : Z.of_uint (Pos.to_uint p) = Z.pos p.
Proof. unfold Z.of_uint. by rewrite DecimalPos.Unsigned.of_to. Qed.

(** What [scan_int] does with digits that a delimiter follows. *)
Lemma scan_int_digits (negative : bool) (u : Decimal.uint) (c : ascii) (rest : string) :
  u <> Decimal.Nil ->
  delimiter c ->
  Nat.ltb int_max_str_digits (Decimal.nb_digits u) = false ->
  match u, String c rest with
  | Decimal.Nil, _ => Beyond
  | _, String ("." | "e" | "E") _ => Beyond
  | _, _ =>
      if Nat.ltb int_max_str_digits (Decimal.nb_digits u) then Fail ValueError
      else Got (if negative then - Z.of_uint u else Z.of_uint u, String c rest)
  end = Got (if negative then (- Z.of_uint u)%Z else Z.of_uint u, String c rest).
Proof.
  intros Hnil Hc Hlim. rewrite Hlim.
  destruct u; try done; by destruct Hc as [-> | ->].
Qed.

(** A decimal numeral without a leading zero and within the limit on digits,
    and its negation, are scanned back to the number they denote. *)
Lemma scan_int_uint (u : Decimal.uint) (c : ascii) (rest : string) :
  u <> Decimal.Nil ->
  (forall u', u <> Decimal.D0 u') ->
  delimiter c ->
  Nat.ltb int_max_str_digits (Decimal.nb_digits u) = false ->
  scan_int (NilEmpty.string_of_uint u +:+ String c rest)
    = Got (Z.of_uint u, String c rest) /\
  scan_int (String "-" (NilEmpty.string_of_uint u +:+ String c rest))
    = Got (- Z.of_uint u, String c rest).
Proof.
  intros Hnil Hzero Hc Hlim.
  pose proof (scan_digits_string u c rest Hc) as Hscan.
  pose proof (scan_int_digits false u c rest Hnil Hc Hlim) as Hpos.
  pose proof (scan_int_digits true u c rest Hnil Hc Hlim) as Hneg.
  destruct u; try done; try (by exfalso; eapply Hzero);
    cbn [NilEmpty.string_of_uint] in *; rewrite append_cons in *;
    unfold scan_int; rewrite Hscan; split; assumption.
Qed.

Lemma encode_int_atom (indent level : nat) (v : pyval) :
  int_atom v -> encode indent level v = Got (atom_text v).
Proof.
  intros (z & Hz & Hlim). destruct v as [|[]|z'| | | |]; try done.
  injection Hz as ->. cbn [encode]. unfold int_str. rewrite Hlim. f_equal.
  destruct z as [|p|p]; [reflexivity| |]; cbn [atom_text Z.to_int NilZero.string_of_int];
    unfold NilZero.string_of_uint;
    pose proof (DecimalPos.Unsigned.to_uint_nonnil p);
    by destruct (Pos.to_uint p).
Qed.

(** The value of an integer entry is read back, and the text that follows it
    is left in place. *)
Lemma decode_value_int (fuel depth : nat) (v : pyval) (c : ascii) (rest : string) :
  int_atom v ->
  delimiter c ->
  let text := atom_text v +:+ String c rest in
  skip_ws text = text /\
  decode_value (S fuel) depth text = Got (v, String c rest).
Proof.
  intros (z & Hz & Hlim) Hc. destruct v as [|[]|z'| | | |]; try done; cbv zeta.
  injection Hz as ->. destruct z as [|p|p].
  - destruct Hc as [-> | ->]; split; reflexivity.
  - destruct (scan_int_uint (Pos.to_uint p) c rest) as [Hs _];
      [apply DecimalPos.Unsigned.to_uint_nonnil
      |apply to_uint_no_leading_zero | done | exact Hlim |].
    rewrite of_to_uint in Hs. clear Hlim.
    pose proof (to_uint_no_leading_zero p) as Hz.
    pose proof (DecimalPos.Unsigned.to_uint_nonnil p) as Hn.
    cbn [atom_text].
    destruct (Pos.to_uint p); try done; try (by exfalso; eapply Hz);
      cbn [NilEmpty.string_of_uint] in *; rewrite append_cons in *;
      (split; [reflexivity|]); cbn [decode_value Ascii.eqb Bool.eqb quote];
      by rewrite Hs.
  - destruct (scan_int_uint (Pos.to_uint p) c rest) as [_ Hs];
      [apply DecimalPos.Unsigned.to_uint_nonnil
      |apply to_uint_no_leading_zero | done | exact Hlim |].
    rewrite of_to_uint in Hs. cbn [atom_text]. rewrite append_cons.
    split; [reflexivity|]. cbn [decode_value Ascii.eqb Bool.eqb quote].
    by rewrite Hs.
Qed.

(** Brings a text built with [+:+] to the form where the known characters
    lead and the appends nest to the right. *)
Ltac normalize_text :=
  unfold encode_str, newline_indent;
  repeat (rewrite ?append_cons, ?append_assoc, ?append_nil).

(** One member of an object: the key, the colon, the integer value; what
    comes next decides whether the object ends or goes on. *)
Lemma decode_members_step (fuel depth : nat) (acc : pydict)
    (k : string) (x : pyval) (c : ascii) (rest text : string) :
  int_atom x ->
  delimiter c ->
  text = (encode_str k +:+ ": " +:+ atom_text x) +:+ String c rest ->
  decode_members (S (S fuel)) depth acc text =
  match skip_ws (String c rest) with
  | String "}" r => Got (dict_store k x acc, r)
  | String "," s => decode_members (S fuel) depth (dict_store k x acc) (skip_ws s)
  | _ => Fail JSONDecodeError
  end.
Proof.
  intros Hx Hc ->.
  destruct (decode_value_int fuel depth x c rest Hx Hc) as [Hws Hval].
  normalize_text.
  cbn [decode_members].
  replace (Ascii.eqb quote quote) with true by reflexivity.
  rewrite scan_string_encode_chars.
  change (skip_ws (String ":" ?s)) with (String ":" s).
  cbv beta iota.
  change (skip_ws (String " " ?s)) with (skip_ws s).
  rewrite Hws, Hval. reflexivity.
Qed.

(** The members of an object of integers as the encoder writes them. *)
Local Abbreviation member :=
  (fun '(k, x) => encode_str k +:+ ": " +:+ atom_text x).
Local Abbreviation separator indent level := ("," +:+ newline_indent indent level).

(** The encoder writes a non-empty object of integers as a block of its
    members. *)
Lemma encode_int_dict (indent level : nat) (kv : string * pyval) (d : pydict) :
  Forall (fun kv => int_atom (snd kv)) (kv :: d) ->
  (level < max_depth)%nat ->
  encode indent level (PDict (kv :: d)) =
  Got (block "{" "}" indent level (map member (kv :: d))).
Proof.
  intros Hint Hlevel.
  assert (Hmembers : forall d' : pydict,
    Forall (fun kv => int_atom (snd kv)) d' ->
    (fix each (d : pydict) : result (list string) :=
       match d with
       | [] => Got []
       | (k, x) :: d' =>
           result_cons
             (result_map (fun t => encode_str k +:+ ": " +:+ t)
                (encode indent (S level) x))
             (each d')
       end) d' = Got (map member d')).
  { induction 1 as [|[k x] d' Hx _ IH]; [done|].
    rewrite IH. cbn [snd] in Hx. by rewrite (encode_int_atom _ _ _ Hx). }
  destruct kv as [k x]. cbn [encode].
  replace (Nat.leb max_depth level) with false
    by (symmetry; apply Nat.leb_gt; exact Hlevel).
  by rewrite (Hmembers _ Hint).
Qed.

Lemma join_members_head (indent level : nat) (kv : string * pyval) (d : pydict) (tail : string) :
  exists body,
    join (separator indent level) (map member (kv :: d)) +:+ tail
    = String quote body.
Proof.
  destruct kv as [k x]. destruct d as [|kv' d]; cbn [map join];
    normalize_text; eauto.
Qed.

(** The members of a non-empty object of integers, up to the closing brace on
    its own line, are read back in order. *)
Lemma decode_members_text (indent level depth : nat) (tail : string) (d : pydict) :
  forall (kv : string * pyval) (fuel : nat) (acc : pydict),
    Forall (fun kv => int_atom (snd kv)) (kv :: d) ->
    (S (length d) < fuel)%nat ->
    decode_members fuel depth acc
      (join (separator indent (S level)) (map member (kv :: d)) +:+
       newline_indent indent level +:+ "}" +:+ tail)
    = Got (store_all (kv :: d) acc, tail).
Proof.
  induction d as [|kv' d IH]; intros [k x] fuel acc Hint Hfuel;
    destruct fuel as [|[|fuel]]; try lia;
    apply Forall_cons in Hint as [Hx Hint]; cbn [snd] in Hx.
  - rewrite (decode_members_step fuel depth acc k x newline
               (spaces (indent * level) +:+ "}" +:+ tail));
      [|done|by right|cbn [map join]; by normalize_text].
    change (skip_ws (String newline ?s)) with (skip_ws s).
    rewrite skip_ws_spaces. reflexivity.
  - rewrite (decode_members_step fuel depth acc k x ","
               (newline_indent indent (S level) +:+
                join (separator indent (S level)) (map member (kv' :: d)) +:+
                newline_indent indent level +:+ "}" +:+ tail));
      [|done|by left|].
    + change (skip_ws (String "," ?s)) with (String "," s). cbv beta iota.
      rewrite skip_ws_newline_indent.
      destruct (join_members_head indent (S level) kv' d
                  (newline_indent indent level +:+ "}" +:+ tail)) as [body Hbody].
      rewrite Hbody. change (skip_ws (String quote body)) with (String quote body).
      rewrite <- Hbody. rewrite IH; [reflexivity | done | simpl in *; lia].
    + change (join ?sep (map ?f ((k, x) :: kv' :: d)))
        with (f (k, x) +:+ sep +:+ join sep (map f (kv' :: d))).
      cbv beta iota. by rewrite !append_assoc.
Qed.

(** Storing the entries of a dict one by one, in order, builds that dict. *)
Lemma store_all_wf (d acc : pydict) :
  dict_wf (acc ++ d) -> store_all d acc = acc ++ d.
Proof.
  unfold dict_wf. revert acc. induction d as [|[k v] d IH]; intros acc Hwf.
  - by rewrite app_nil_r.
  - change (store_all ((k, v) :: d) acc) with (store_all d (dict_store k v acc)).
    rewrite dict_store_fresh.
    + rewrite IH; rewrite <- app_assoc; done.
    + rewrite map_app in Hwf. apply NoDup_app in Hwf as (_ & Hdisj & _).
      intros Hin. apply (Hdisj k); [by apply list_elem_of_In | left].
Qed.

Lemma length_join_members (indent level : nat) (d : pydict) :
  (length d <= String.length (join (separator indent level) (map member d)))%nat.
Proof.
  induction d as [|[k x] [|kv' d] IH]; [done| |].
  - cbn [map join]. unfold encode_str. rewrite append_cons. simpl. lia.
  - change (join ?sep (map ?f ((k, x) :: kv' :: d)))
      with (f (k, x) +:+ sep +:+ join sep (map f (kv' :: d))).
    cbv beta iota. unfold encode_str at 1. rewrite append_cons, !length_append.
    cbn [String.length length] in *. lia.
Qed.

(** The reference codec writes every dict of integers within the limit on
    digits, and reads back that dict from the text. *)
Lemma loads_dumps_int_dict (d : pydict) (indent : nat) :
  dict_wf d ->
  Forall (fun kv => int_atom (snd kv)) d ->
  exists text, dumps (PDict d) indent = Got text /\ loads text = Got (PDict d).
Proof.
  intros Hwf Hint. destruct d as [|kv d].
  { exists "{}". split; reflexivity. }
  exists (block "{" "}" indent 0 (map member (kv :: d))).
  split.
  { unfold dumps. apply encode_int_dict; [done|]. unfold max_depth. lia. }
  unfold loads.
  assert (Hfuel : exists fuel,
            (2 * String.length (block "{" "}" indent 0 (map member (kv :: d))) + 2)%nat
              = S fuel /\
            (S (length d) < fuel)%nat).
  { eexists. split; [by rewrite Nat.add_succ_r|].
    pose proof (length_join_members indent 1 (kv :: d)) as Hlen.
    unfold block.
    rewrite append_cons. cbn [String.length]. rewrite !length_append.
    cbn [length] in *. lia. }
  destruct Hfuel as (fuel & -> & Hfuel).
  change (block "{" "}" indent 0 (map member (kv :: d)))
    with ("{" +:+ newline_indent indent 1 +:+
          join (separator indent 1) (map member (kv :: d)) +:+
          newline_indent indent 0 +:+ "}" +:+ "").
  rewrite append_cons, append_nil.
  change (skip_ws (String "{" ?s)) with (String "{" s).
  cbn [decode_value]. replace (Ascii.eqb "{" quote) with false by reflexivity.
  replace (Ascii.eqb "{" "{") with true by reflexivity.
  unfold max_depth at 1. cbv beta iota.
  rewrite skip_ws_newline_indent.
  destruct (join_members_head indent 1 kv d (newline_indent indent 0 +:+ "}" +:+ ""))
    as [body Hbody].
  rewrite Hbody. change (skip_ws (String quote body)) with (String quote body).
  unfold quote in Hbody |- *. cbv beta iota. rewrite <- Hbody.
  rewrite (decode_members_text indent 0 _ "" d kv fuel [] Hint Hfuel).
  cbn [result_map]. rewrite store_all_wf; [reflexivity | done].
Qed.

End PyJsonFacts.

(** ** Runs with the reference codec *)



Lemma load_data_returns_parsed_value_witness :
  fst (load_data (Some "inventory.json")
         (World [] [] [] {["inventory.json" := File "[1, 2]"]} "")) =
  Return (PList [PInt 1; PInt 2]).
Proof.
  destruct (load_data_returns_parsed_value
              (World [] [] [] {["inventory.json" := File "[1, 2]"]} "")
              "inventory.json" "[1, 2]" (PList [PInt 1; PInt 2]))
    as (fmt & args & E).
  - vm_compute. reflexivity.
  - vm_compute. reflexivity.
  - rewrite E. reflexivity.
Defined.

(** The entries of a dict of integers within the limit on digits are what
    the encoder writes as integers. *)
Lemma int_atoms (d : pydict) :
  int_valued d -> digits_within_limit d ->
  Forall (fun kv => PyJson.int_atom (snd kv)) d.
Proof.
  unfold int_valued, digits_within_limit, PyJson.int_atom.
  induction 1 as [|kv d [z Hz] _ IH]; intros Hlim; [constructor|].
  apply Forall_cons in Hlim as [Hkv Hlim]. rewrite Hz in Hkv.
  constructor; [eauto | by apply IH].
Qed.




(** * Further properties of the module *)

(** ** Removing stock *)

Lemma remove_item_run (w : world) (item : string) (qty : pyval) :
  fst (remove_item item qty w) = Return tt /\
  stock (snd (remove_item item qty w)) = stock_after_remove item qty (stock w) /\
  lists (snd (remove_item item qty w)) = lists w /\
  files (snd (remove_item item qty w)) = files w.
Proof.
  unfold stock_after_remove. run.
  destruct (dict_lookup item (stock w)) as [old|] eqn:Hold; cbn; [|done].
  destruct old, qty; cbn; try done;
    rewrite dict_lookup_store_eq; cbn; try done;
    (destruct (_ <=? 0)%Z; cbn; [|done]);
    rewrite dict_lookup_store_eq; cbn; by rewrite dict_remove_store.
Qed.

(** X1. [remove_item] returns normally whatever the item, the stored value
    and the quantity, among the values of the model (None, bool, int, str,
    list, dict, set): a missing key and a [TypeError] of the subtraction or of
    the comparison are caught and logged, and nothing else in it can fail on
    these values. *)
Theorem remove_item_never_raises (w : world) (item : string) (qty : pyval) :
  fst (remove_item item qty w) = Return tt.
Proof. apply remove_item_run. Qed.

Lemma remove_item_never_raises_witness :
  fst (remove_item "apple" (PSet [PInt 1])
         (World [("apple", PSet [PInt 1; PInt 2])] [] [] ∅ "")) = Return tt /\
  fst (remove_item "apple" PNone (World [("apple", PInt 2)] [] [] ∅ "")) = Return tt.
Proof.
  split; apply remove_item_never_raises.
Defined.

Lemma all_positive_remove (k : string) (d : pydict) :
  all_positive d = true -> all_positive (dict_remove k d) = true.
Proof.
  unfold all_positive, dict_remove. induction d as [|[k' v'] d IH]; [done|].
  cbn [forallb List.filter fst]. intros [Hv Hd]%andb_prop.
  destruct (negb (String.eqb k k')); cbn [forallb]; [|by apply IH].
  by rewrite Hv, IH.
Qed.

Lemma all_positive_store (k : string) (x : Z) (d : pydict) :
  (0 < x)%Z -> all_positive d = true -> all_positive (dict_store k (PInt x) d) = true.
Proof.
  intros Hx. unfold all_positive.
  assert (Hx' : (0 <? x)%Z = true) by by apply Z.ltb_lt.
  induction d as [|[k' v'] d IH].
  - intros _. change (dict_store k (PInt x) []) with [(k, PInt x)].
    cbn [forallb snd int_value]. by rewrite Hx'.
  - cbn [forallb]. intros [Hv Hd]%andb_prop.
    change (dict_store k (PInt x) ((k', v') :: d))
      with (if String.eqb k k' then (k', PInt x) :: d
            else (k', v') :: dict_store k (PInt x) d).
    destruct (String.eqb k k'); cbn [forallb snd int_value].
    + by rewrite Hx', Hd.
    + cbn [snd] in Hv. by rewrite Hv, IH.
Qed.

Lemma all_positive_lookup (k : string) (v : pyval) (d : pydict) :
  all_positive d = true -> dict_lookup k d = Some v ->
  exists x, int_value v = Some x /\ (0 < x)%Z.
Proof.
  unfold all_positive. induction d as [|[k' v'] d IH]; [done|].
  cbn [forallb snd]. intros [Hv Hd]%andb_prop.
  change (dict_lookup k ((k', v') :: d))
    with (if String.eqb k k' then Some v' else dict_lookup k d).
  destruct (String.eqb k k'); [|by apply IH].
  intros [= <-]. destruct (int_value v') as [x|]; [|done].
  exists x. split; [done|]. by apply Z.ltb_lt.
Qed.

(** The stock after [remove_item] when the item holds a number. *)
Lemma stock_after_remove_int (item : string) (qty old : pyval) (x : Z) (d : pydict) :
  dict_lookup item d = Some old ->
  int_value old = Some x ->
  stock_after_remove item qty d =
  match int_value qty with
  | Some q => if Z.leb (x - q) 0 then dict_remove item d else dict_store item (PInt (x - q)) d
  | None => d
  end.
Proof.
  intros Hold Hx. unfold stock_after_remove. rewrite Hold.
  destruct old; try done; cbn [int_value] in *; injection Hx as <-; by destruct qty.
Qed.

(** [remove_item] leaves the stock as it is, or deletes the item, or gives
    the item, which is in the stock, a new value. *)
Lemma stock_after_remove_cases (item : string) (qty : pyval) (d : pydict) :
  stock_after_remove item qty d = d \/
  stock_after_remove item qty d = dict_remove item d \/
  exists old new, dict_lookup item d = Some old /\
                  stock_after_remove item qty d = dict_store item new d.
Proof.
  unfold stock_after_remove.
  destruct (dict_lookup item d) as [old|] eqn:Hold; [|by left].
  destruct old, qty; cbn [int_value]; try (by left);
    try (destruct (_ <=? 0)%Z; [by right; left | right; right; eauto]).
  right; right; eauto.
Qed.

(** X2. If every stored quantity is an integer above zero, it is still so
    after [remove_item], whatever the item, for an integer quantity and for a
    quantity of another type of the model (None, str, list, dict, set), which
    changes nothing: what drops to zero or below is deleted. *)
Theorem remove_item_keeps_positive (w : world) (item : string) (qty : pyval) :
  all_positive (stock w) = true ->
  all_positive (stock (snd (remove_item item qty w))) = true.
Proof.
  intros Hpos. destruct (remove_item_run w item qty) as (_ & -> & _).
  destruct (dict_lookup item (stock w)) as [old|] eqn:Hold.
  - destruct (all_positive_lookup _ _ _ Hpos Hold) as (x & Hx & Hx0).
    rewrite (stock_after_remove_int _ _ _ _ _ Hold Hx).
    destruct (int_value qty) as [q|]; [|done].
    destruct (x - q <=? 0)%Z eqn:Hle.
    + by apply all_positive_remove.
    + apply all_positive_store; [|done]. apply Z.leb_gt in Hle. lia.
  - unfold stock_after_remove. by rewrite Hold.
Qed.

Lemma remove_item_keeps_positive_witness :
  all_positive (stock (snd (remove_item "apple" (PInt 10)
                              (World [("apple", PInt 10); ("pear", PInt 2)] [] [] ∅ ""))))
  = true.
Proof.
  apply (remove_item_keeps_positive
           (World [("apple", PInt 10); ("pear", PInt 2)] [] [] ∅ "") "apple" (PInt 10)).
  reflexivity.
Defined.

Lemma dict_remove_keys_sublist (k : string) (d : pydict) :
  sublist (map fst (dict_remove k d)) (map fst d).
Proof.
  unfold dict_remove. induction d as [|[k' v'] d IH]; [done|].
  cbn [List.filter fst map]. destruct (negb (String.eqb k k')); cbn [map fst].
  - by apply sublist_skip.
  - by apply sublist_cons.
Qed.


(** X4. After [remove_item] takes an integer [q] from an item that holds an
    integer [x], [get_qty] returns [max 0 (x - q)]: the difference while it is
    above zero, and 0 once the item is deleted. *)
Theorem get_qty_after_remove_item
    (w : world) (item : string) (qty old : pyval) (x q : Z) :
  dict_lookup item (stock w) = Some old ->
  int_value old = Some x ->
  int_value qty = Some q ->
  fst (get_qty item (snd (remove_item item qty w))) = Return (PInt (Z.max 0 (x - q))).
Proof.
  intros Hold Hx Hq. rewrite get_qty_run. cbn [fst].
  destruct (remove_item_run w item qty) as (_ & -> & _).
  rewrite (stock_after_remove_int _ _ _ _ _ Hold Hx), Hq.
  destruct (x - q <=? 0)%Z eqn:Hle.
  - rewrite dict_lookup_remove_eq. apply Z.leb_le in Hle. by rewrite Z.max_l.
  - rewrite dict_lookup_store_eq. apply Z.leb_gt in Hle. rewrite Z.max_r; [done|lia].
Qed.

Lemma get_qty_after_remove_item_witness :
  fst (get_qty "apple"
         (snd (remove_item "apple" (PInt 3) (World [("apple", PInt 10)] [] [] ∅ ""))))
    = Return (PInt 7) /\
  fst (get_qty "apple"
         (snd (remove_item "apple" (PInt 12) (World [("apple", PInt 10)] [] [] ∅ ""))))
    = Return (PInt 0).
Proof.
  split.
  - apply (get_qty_after_remove_item (World [("apple", PInt 10)] [] [] ∅ "")
             "apple" (PInt 3) (PInt 10) 10 3); reflexivity.
  - apply (get_qty_after_remove_item (World [("apple", PInt 10)] [] [] ∅ "")
             "apple" (PInt 12) (PInt 10) 10 12); reflexivity.
Defined.

(** ** Adding stock *)

Lemma py_add_not_int (a b : pyval) (y : Z) :
  int_value a = None -> int_value b = Some y -> py_add a b = Raise TypeError.
Proof. destruct a, b; simpl; done. Qed.

(** X5. When the stock holds something that is not a number for the name (it
    is None, a str, a list, a dict or a set), [add_item] of an integer raises
    [TypeError] to its caller: the stock is unchanged, nothing is logged and
    nothing is appended to the caller's list. *)
Theorem add_item_raises_type_error
    (w : world) (item : string) (qty old : pyval) (logs : option nat) :
  item <> "" ->
  isinstance_int qty = true ->
  dict_lookup item (stock w) = Some old ->
  int_value old = None ->
  add_item (Some item) (Some qty) logs w =
  (Raise TypeError,
   match logs with
   | Some _ => w
   | None => set_lists (lists w ++ [[]]) w
   end).
Proof.
  intros Hitem Hqty Hold Hbad. apply String.eqb_neq in Hitem.
  assert (exists q, int_value qty = Some q) as [q Hq] by (destruct qty; by eauto).
  run. destruct logs; cbn; rewrite Hitem, Hqty; cbn; rewrite Hold; cbn;
    by rewrite (py_add_not_int _ _ _ Hbad Hq).
Qed.

Lemma add_item_raises_type_error_witness :
  add_item (Some "apple") (Some (PInt 1)) (Some 0%nat)
    (World [("apple", PStr "ten")] [[]] [] ∅ "") =
  (Raise TypeError, World [("apple", PStr "ten")] [[]] [] ∅ "").
Proof.
  apply (add_item_raises_type_error (World [("apple", PStr "ten")] [[]] [] ∅ "")
           "apple" (PInt 1) (PStr "ten") (Some 0%nat)); [discriminate | reflexivity..].
Defined.

(** X6. When the text of the quantity can be made, [add_item] returns
    normally and appends exactly one entry, the time and the text
    [Added q of item], to the list object the caller passed and leaves the
    other list objects alone; called without a list it changes no list object
    that existed before.  It emits one informational record. *)
Theorem add_item_appends_log_entry
    (w : world) (item : string) (qty : pyval) (logs : option nat) (q prior : Z)
    (qty_text : string) :
  item <> "" ->
  int_value qty = Some q ->
  int_value (match dict_lookup item (stock w) with Some v => v | None => PInt 0 end)
    = Some prior ->
  py_str qty = Return qty_text ->
  let w' := snd (add_item (Some item) (Some qty) logs w) in
  let entry := clock w +:+ ": " +:+ "Added " +:+ qty_text +:+ " of " +:+ item in
  fst (add_item (Some item) (Some qty) logs w) = Return tt /\
  match logs with
  | Some r =>
      forall l, lists w !! r = Some l ->
        lists w' !! r = Some (l ++ [entry]) /\
        (forall r', r' <> r -> lists w' !! r' = lists w !! r')
  | None =>
      forall r l, lists w !! r = Some l -> lists w' !! r = Some l
  end /\
  emitted w' =
    emitted w ++ [LogRecord INFO "Added %d of %s" [ArgVal qty; ArgVal (PStr item)]].
Proof.
  intros Hitem Hq Hprior Htext. cbv zeta.
  rewrite (add_item_run w item qty logs q prior Hitem Hq Hprior), Htext.
  cbn [fst snd lists emitted].
  split; [done|]. split; [|done]. destruct logs as [r|].
  - intros l Hl. rewrite Hl. cbn. split.
    + apply list_lookup_insert_eq. by apply lookup_lt_Some in Hl.
    + intros r' Hr'. by apply list_lookup_insert_ne.
  - intros r l Hl. by apply lookup_app_l_Some.
Qed.

Lemma add_item_appends_log_entry_witness :
  lists (snd (add_item (Some "apple") (Some (PInt 10)) (Some 0%nat)
                (World [] [["earlier"]] [] ∅ "12:00"))) !! 0%nat
  = Some ["earlier"; "12:00: Added 10 of apple"].
Proof.
  destruct (add_item_appends_log_entry (World [] [["earlier"]] [] ∅ "12:00")
              "apple" (PInt 10) (Some 0%nat) 10 0 "10") as (_ & H & _);
    [discriminate | reflexivity | reflexivity | reflexivity |].
  cbv zeta in H. apply (H ["earlier"]). reflexivity.
Defined.

(** X7. A successful [add_item] keeps the order of the keys: an item that is
    in the stock keeps its place, a new item goes last. *)
Theorem add_item_key_order
    (w : world) (item : string) (qty : pyval) (logs : option nat) (q prior : Z) :
  item <> "" ->
  int_value qty = Some q ->
  int_value (match dict_lookup item (stock w) with Some v => v | None => PInt 0 end)
    = Some prior ->
  map fst (stock (snd (add_item (Some item) (Some qty) logs w))) =
  match dict_lookup item (stock w) with
  | Some _ => map fst (stock w)
  | None => map fst (stock w) ++ [item]
  end.
Proof.
  intros Hitem Hq Hprior.
  rewrite (add_item_stock w item qty logs q prior Hitem Hq Hprior).
  apply dict_store_keys.
Qed.

Lemma add_item_key_order_witness :
  map fst (stock (snd (add_item (Some "apple") (Some (PInt 1)) None
                         (World [("apple", PInt 1); ("pear", PInt 2)] [] [] ∅ ""))))
    = ["apple"; "pear"] /\
  map fst (stock (snd (add_item (Some "kiwi") (Some (PInt 1)) None
                         (World [("apple", PInt 1); ("pear", PInt 2)] [] [] ∅ ""))))
    = ["apple"; "pear"; "kiwi"].
Proof.
  split.
  - apply (add_item_key_order (World [("apple", PInt 1); ("pear", PInt 2)] [] [] ∅ "")
             "apple" (PInt 1) None 1 1); [discriminate | reflexivity..].
  - apply (add_item_key_order (World [("apple", PInt 1); ("pear", PInt 2)] [] [] ∅ "")
             "kiwi" (PInt 1) None 1 0); [discriminate | reflexivity..].
Defined.

(** X8. If every stored quantity is an integer above zero, it is still so
    after [add_item] of an integer above zero, whatever the name (an empty
    name changes nothing), and the call returns normally when the integer is
    within the limit on digits. *)
Theorem add_item_keeps_positive
    (w : world) (item : string) (qty : pyval) (logs : option nat) (q : Z) :
  all_positive (stock w) = true ->
  int_value qty = Some q ->
  (0 < q)%Z ->
  (exceeds_digit_limit q = false ->
   fst (add_item (Some item) (Some qty) logs w) = Return tt) /\
  all_positive (stock (snd (add_item (Some item) (Some qty) logs w))) = true.
Proof.
  intros Hpos Hq Hq0. destruct (String.eqb item "") eqn:Hitem.
  - apply String.eqb_eq in Hitem. subst item.
    run. destruct logs; cbn; done.
  - apply String.eqb_neq in Hitem.
    assert (exists prior,
              int_value (match dict_lookup item (stock w) with
                         | Some v => v
                         | None => PInt 0
                         end) = Some prior /\ (0 <= prior)%Z) as (prior & Hprior & Hp0).
    { destruct (dict_lookup item (stock w)) as [old|] eqn:Hold.
      - destruct (all_positive_lookup _ _ _ Hpos Hold) as (x & Hx & Hx0).
        exists x. split; [done|lia].
      - exists 0%Z. split; [done|lia]. }
    destruct (add_item_accepts w item qty logs q prior Hitem Hq Hprior)
      as (w' & -> & Hstock & _).
    cbn [fst snd]. split; [by intros ->|].
    rewrite Hstock. apply all_positive_store; [lia|done].
Qed.

Lemma add_item_keeps_positive_witness :
  all_positive (stock (snd (add_item (Some "kiwi") (Some (PInt 4)) None
                              (World [("apple", PInt 1)] [] [] ∅ "")))) = true.
Proof.
  apply (add_item_keeps_positive (World [("apple", PInt 1)] [] [] ∅ "")
           "kiwi" (PInt 4) None 4); [reflexivity | reflexivity | lia].
Defined.

Lemma dict_store_same (k : string) (v : pyval) (d : pydict) :
  dict_lookup k d = Some v -> dict_store k v d = d.
Proof.
  induction d as [|[k' v'] d IH]; [done|].
  change (dict_lookup k ((k', v') :: d))
    with (if String.eqb k k' then Some v' else dict_lookup k d).
  change (dict_store k v ((k', v') :: d))
    with (if String.eqb k k' then (k', v) :: d else (k', v') :: dict_store k v d).
  destruct (String.eqb k k').
  - by intros [= ->].
  - intros Hd. by rewrite IH.
Qed.

Lemma dict_store_store (k : string) (v v' : pyval) (d : pydict) :
  dict_store k v (dict_store k v' d) = dict_store k v d.
Proof.
  induction d as [|[k0 v0] d IH].
  - change (dict_store k v' []) with [(k, v')].
    change (dict_store k v [(k, v')])
      with (if String.eqb k k then [(k, v)] else (k, v') :: dict_store k v []).
    by rewrite String.eqb_refl.
  - change (dict_store k v' ((k0, v0) :: d))
      with (if String.eqb k k0 then (k0, v') :: d else (k0, v0) :: dict_store k v' d).
    change (dict_store k v ((k0, v0) :: d))
      with (if String.eqb k k0 then (k0, v) :: d else (k0, v0) :: dict_store k v d).
    destruct (String.eqb k k0) eqn:E.
    + change (dict_store k v ((k0, v') :: d))
        with (if String.eqb k k0 then (k0, v) :: d else (k0, v') :: dict_store k v d).
      by rewrite E.
    + change (dict_store k v ((k0, v0) :: dict_store k v' d))
        with (if String.eqb k k0 then (k0, v) :: dict_store k v' d
              else (k0, v0) :: dict_store k v (dict_store k v' d)).
      by rewrite E, IH.
Qed.

Lemma dict_remove_absent (k : string) (d : pydict) :
  dict_lookup k d = None -> dict_remove k d = d.
Proof.
  unfold dict_remove. induction d as [|[k' v'] d IH]; [done|].
  change (dict_lookup k ((k', v') :: d))
    with (if String.eqb k k' then Some v' else dict_lookup k d).
  cbn [List.filter fst]. destruct (String.eqb k k'); [done|].
  intros Hd. cbn [negb]. by rewrite IH.
Qed.





(** X11. Called with the stock alone, [add_item] uses its default name and
    quantity: on a stock without the key [default] it appends that key with
    the quantity 0 and returns normally. *)
Theorem add_item_defaults (w : world) (logs : option nat) :
  dict_lookup "default" (stock w) = None ->
  fst (add_item None None logs w) = Return tt /\
  stock (snd (add_item None None logs w)) = stock w ++ [("default", PInt 0)].
Proof.
  intros Hnone.
  change (add_item None None logs w)
    with (add_item (Some "default") (Some (PInt 0)) logs w).
  destruct (add_item_accepts w "default" (PInt 0) logs 0 0) as (w' & -> & Hstock & _);
    [done | done | by rewrite Hnone |].
  cbn [fst snd]. split; [done|]. rewrite Hstock.
  apply dict_store_fresh. by apply dict_lookup_None_keys.
Qed.

Lemma add_item_defaults_witness :
  stock (snd (add_item None None None (World [("apple", PInt 1)] [] [] ∅ "")))
  = [("apple", PInt 1); ("default", PInt 0)].
Proof.
  apply (add_item_defaults (World [("apple", PInt 1)] [] [] ∅ "") None). reflexivity.
Defined.

(** ** Listing low stock *)

Lemma py_le_not_int (a b : pyval) (y : Z) :
  int_value a = None -> int_value b = Some y -> py_le a b = Raise TypeError.
Proof. destruct a, b; simpl; done. Qed.

Lemma low_items_loop_raises (threshold : pyval) (th : Z) (items : pydict)
    (acc : list string) (w : world) :
  int_value threshold = Some th ->
  Exists (fun kv => int_value (snd kv) = None) items ->
  for_each items
    (fun result '(item, qty) =>
       low ← lift (py_le qty threshold);
       if low : bool then mret (result ++ [item]) else mret result)
    acc w
  = (Raise TypeError, w).
Proof.
  intros Hth Hbad. revert acc.
  induction items as [|[item qty] items IH]; intros acc; [by apply Exists_nil in Hbad|].
  cbn [for_each]. destruct (int_value qty) as [x|] eqn:Hx.
  - apply Exists_cons in Hbad as [Hbad | Hbad]; [cbn [snd] in Hbad; congruence|].
    destruct (x <=? th)%Z eqn:Hle.
    + rewrite (bind_returns _ _ w w (acc ++ [item])); [by apply IH|].
      unfold mbind, M_bind, lift. by rewrite (py_le_int _ _ _ _ Hx Hth), Hle.
    + rewrite (bind_returns _ _ w w acc); [by apply IH|].
      unfold mbind, M_bind, lift. by rewrite (py_le_int _ _ _ _ Hx Hth), Hle.
  - unfold mbind, M_bind, lift. by rewrite (py_le_not_int _ _ _ Hx Hth).
Qed.

(** X12. With an integer threshold, [check_low_items] raises [TypeError] to
    its caller as soon as one stored value is not a number (it is None, a
    str, a list, a dict or a set), wherever it stands in the stock; the world
    is unchanged. *)
Theorem check_low_items_raises_type_error (w : world) (threshold : pyval) (th : Z) :
  int_value threshold = Some th ->
  Exists (fun kv => int_value (snd kv) = None) (stock w) ->
  check_low_items (Some threshold) w = (Raise TypeError, w).
Proof.
  intros Hth Hbad. unfold check_low_items, arg, from_option, id.
  rewrite (bind_returns _ _ w w (stock w)) by reflexivity.
  by apply (low_items_loop_raises _ th).
Qed.

Lemma check_low_items_raises_type_error_witness :
  check_low_items (Some (PInt 5))
    (World [("a", PInt 1); ("b", PStr "6"); ("c", PInt 5)] [] [] ∅ "") =
  (Raise TypeError, World [("a", PInt 1); ("b", PStr "6"); ("c", PInt 5)] [] [] ∅ "").
Proof.
  apply (check_low_items_raises_type_error
           (World [("a", PInt 1); ("b", PStr "6"); ("c", PInt 5)] [] [] ∅ "") (PInt 5) 5).
  - reflexivity.
  - apply Exists_cons_tl, Exists_cons_hd. reflexivity.
Defined.

Lemma low_names_sublist (th1 th2 : Z) (d : pydict) :
  (th1 <= th2)%Z ->
  sublist (map fst (List.filter (quantity_at_most th1) d))
          (map fst (List.filter (quantity_at_most th2) d)).
Proof.
  intros Hth. induction d as [|[k v] d IH]; [constructor|]. cbn [List.filter].
  destruct (quantity_at_most th1 (k, v)) eqn:E1, (quantity_at_most th2 (k, v)) eqn:E2;
    cbn [map fst].
  - by apply sublist_skip.
  - unfold quantity_at_most in E1, E2. cbn [snd] in E1, E2.
    destruct (int_value v) as [x|]; [|done].
    apply Z.leb_le in E1. apply Z.leb_gt in E2. lia.
  - by apply sublist_cons.
  - exact IH.
Qed.

(** X13. On a stock of integers, raising the threshold only adds names: the
    list for a threshold is a sublist, in order, of the list for any larger
    threshold. *)
Theorem check_low_items_monotone (w : world) (t1 t2 : pyval) (th1 th2 : Z) :
  int_valued (stock w) ->
  int_value t1 = Some th1 ->
  int_value t2 = Some th2 ->
  (th1 <= th2)%Z ->
  exists l1 l2,
    fst (check_low_items (Some t1) w) = Return l1 /\
    fst (check_low_items (Some t2) w) = Return l2 /\
    sublist l1 l2.
Proof.
  intros Hint H1 H2 Hle.
  exists (map fst (List.filter (quantity_at_most th1) (stock w))),
         (map fst (List.filter (quantity_at_most th2) (stock w))).
  unfold check_low_items, arg, from_option, id.
  rewrite !(bind_returns _ _ w w (stock w)) by reflexivity.
  rewrite (low_items_loop _ th1 _ [] w H1 Hint), (low_items_loop _ th2 _ [] w H2 Hint).
  split_and!; [done..|]. by apply low_names_sublist.
Qed.

Lemma check_low_items_monotone_witness :
  exists l1 l2,
    fst (check_low_items (Some (PInt 1))
           (World [("a", PInt 1); ("b", PInt 6); ("c", PInt 5)] [] [] ∅ "")) = Return l1 /\
    fst (check_low_items (Some (PInt 5))
           (World [("a", PInt 1); ("b", PInt 6); ("c", PInt 5)] [] [] ∅ "")) = Return l2 /\
    sublist l1 l2.
Proof.
  apply (check_low_items_monotone
           (World [("a", PInt 1); ("b", PInt 6); ("c", PInt 5)] [] [] ∅ "")
           (PInt 1) (PInt 5) 1 5); [|reflexivity|reflexivity|lia].
  repeat constructor; eexists; reflexivity.
Defined.

(** ** Saving and loading, once more *)

Section PersistenceEdges.
Context {codec : JsonCodec}.

(** X14. At a path that names a directory, or lies in a directory that does
    not exist, [save_data] returns normally and changes nothing but the log:
    no file is created or written, and one error record carries the
    exception. *)
Theorem save_data_unwritable (w : world) (file : string) :
  files w !! file = Some Dir \/ files w !! file = Some NoParent ->
  save_data (Some file) w =
  (Return tt,
   set_emitted
     (emitted w ++
      [LogRecord ERROR "Could not write to file '%s': %s"
         [ArgVal (PStr file);
          ArgExn (match files w !! file with
                  | Some Dir => IsADirectoryError
                  | _ => FileNotFoundError
                  end)]]) w).
Proof.
  intros [Hf | Hf]; run; by rewrite Hf.
Qed.


(** X16. At a path that names a directory, [load_data] raises
    [IsADirectoryError] to its caller: only a missing file and invalid JSON
    are caught.  Nothing is logged and nothing changes. *)
Theorem load_data_directory_raises (w : world) (file : string) :
  files w !! file = Some Dir ->
  load_data (Some file) w = (Raise IsADirectoryError, w).
Proof.
  intros Hf. run. by rewrite Hf.
Qed.

End PersistenceEdges.

Lemma save_data_unwritable_witness :
  fst (save_data (Some "data")
         (World [("apple", PInt 1)] [] [] {["data" := Dir]} "")) = Return tt /\
  files (snd (save_data (Some "data")
                (World [("apple", PInt 1)] [] [] {["data" := Dir]} "")))
    = {["data" := Dir]}.
Proof.
  rewrite (save_data_unwritable (World [("apple", PInt 1)] [] [] {["data" := Dir]} "")
             "data"); [split; reflexivity|].
  left. vm_compute. reflexivity.
Defined.


Lemma load_data_directory_raises_witness :
  load_data (Some "data") (World [] [] [] {["data" := Dir]} "") =
  (Raise IsADirectoryError, World [] [] [] {["data" := Dir]} "").
Proof.
  apply (load_data_directory_raises (World [] [] [] {["data" := Dir]} "") "data").
  vm_compute. reflexivity.
Defined.

(** ** The report *)

Lemma append_nil_r (s : string) : s +:+ "" = s.
Proof.
  induction s as [|c s IH]; [done|]. by rewrite PyJsonFacts.append_cons, IH.
Qed.

(** One turn of the loop of [print_data]. *)
Lemma print_line_step (item : string) (qty : pyval) (p : process) :
  (qty_text ← in_memory (lift (py_str qty)); print (item +:+ ": " +:+ qty_text)) p =
  match py_str qty with
  | Return t => (Return tt, Process (memory p) (stdout p +:+ report_line item t))
  | Raise e => (Raise e, p)
  end.
Proof.
  destruct p as [w out]. unfold mbind, IO_bind, in_memory, lift, print, report_line.
  cbn [memory stdout]. destruct (py_str qty) as [t|e]; [|done].
  cbn [memory stdout]. by rewrite !PyJsonFacts.append_assoc.
Qed.

(** The lines of the report, for the items whose quantity has a text. *)
Lemma print_items_loop (d : pydict) (texts : list string) (p : process) :
  Forall2 (fun kv t => py_str (snd kv) = Return t) d texts ->
  for_items d
    (fun item qty =>
       qty_text ← in_memory (lift (py_str qty));
       print (item +:+ ": " +:+ qty_text)) p =
  (Return tt,
   Process (memory p)
     (stdout p +:+ concat_text (zip_with report_line (map fst d) texts))).
Proof.
  intros Htexts. revert p.
  induction Htexts as [|[item qty] t d texts Ht _ IH]; intros [w out].
  - cbn [for_items map zip_with concat_text memory stdout]. unfold mret, IO_ret.
    by rewrite append_nil_r.
  - cbn [for_items]. cbn [snd] in Ht.
    unfold mbind at 1, IO_bind at 1. rewrite print_line_step, Ht.
    rewrite IH. cbn [memory stdout map fst zip_with concat_text].
    by rewrite !PyJsonFacts.append_assoc.
Qed.

(** The loop stops at the first quantity that has no text, after the lines
    of the items before it. *)
Lemma print_items_loop_raises (d1 d2 : pydict) (item : string) (qty : pyval)
    (texts : list string) (e : exn) (p : process) :
  Forall2 (fun kv t => py_str (snd kv) = Return t) d1 texts ->
  py_str qty = Raise e ->
  for_items (d1 ++ (item, qty) :: d2)
    (fun item qty =>
       qty_text ← in_memory (lift (py_str qty));
       print (item +:+ ": " +:+ qty_text)) p =
  (Raise e,
   Process (memory p)
     (stdout p +:+ concat_text (zip_with report_line (map fst d1) texts))).
Proof.
  intros Htexts He. revert p.
  induction Htexts as [|[item' qty'] t d texts Ht _ IH]; intros [w out].
  - cbn [app for_items map zip_with concat_text memory stdout].
    unfold mbind at 1, IO_bind at 1. rewrite print_line_step, He.
    by rewrite append_nil_r.
  - cbn [app for_items]. cbn [snd] in Ht.
    unfold mbind at 1, IO_bind at 1. rewrite print_line_step, Ht.
    rewrite IH. cbn [memory stdout map fst zip_with concat_text].
    by rewrite !PyJsonFacts.append_assoc.
Qed.

(** X17. On a stock whose values are nested up to [max_depth], [print_data]
    changes nothing in memory.  When every stored quantity has a text, it
    returns normally, having written the heading after an empty line, then
    one line [name: quantity] for each item, in the order of the stock, or the
    single line [Inventory is empty.] when the stock has no item, then the
    rule and an empty line.  When some quantity has no text (an integer above
    the limit on digits), it raises at the first such item, having written the
    heading and the lines of the items before it. *)
Theorem print_data_writes_report (p : process) :
  Forall (fun kv => (nesting (snd kv) <= max_depth)%nat) (stock (memory p)) ->
  (forall texts,
     Forall2 (fun kv t => py_str (snd kv) = Return t) (stock (memory p)) texts ->
     print_data p =
     (Return tt,
      Process (memory p)
        (stdout p +:+ report_text (map fst (stock (memory p))) texts))) /\
  (forall d1 d2 item qty texts e,
     stock (memory p) = d1 ++ (item, qty) :: d2 ->
     Forall2 (fun kv t => py_str (snd kv) = Return t) d1 texts ->
     py_str qty = Raise e ->
     print_data p =
     (Raise e,
      Process (memory p)
        (stdout p +:+ report_heading +:+
         concat_text (zip_with report_line (map fst d1) texts)))).
Proof.
  intros _. destruct p as [w out]. cbn [memory stdout]. split.
  - intros texts Htexts. unfold print_data, report_text, report_heading.
    unfold mbind at 1 2, IO_bind, print at 1, in_memory, dict_items. cbn [memory stdout].
    destruct (stock w) as [|kv d] eqn:Hd.
    + unfold mbind, IO_bind, print. cbn [memory stdout map].
      by rewrite !PyJsonFacts.append_assoc.
    + unfold mbind at 1, IO_bind. rewrite (print_items_loop _ texts) by done.
      unfold print. cbn [memory stdout map].
      by rewrite !PyJsonFacts.append_assoc.
  - intros d1 d2 item qty texts e Hd Htexts He. unfold print_data, report_heading.
    unfold mbind at 1 2, IO_bind, print at 1, in_memory, dict_items. cbn [memory stdout].
    rewrite Hd.
    destruct (d1 ++ (item, qty) :: d2) as [|kv d] eqn:Hd'; [by destruct d1|].
    rewrite <- Hd'.
    unfold mbind at 1, IO_bind. rewrite (print_items_loop_raises _ _ _ _ texts e) by done.
    cbn [memory stdout].
    by rewrite !PyJsonFacts.append_assoc.
Qed.

Lemma print_data_writes_report_witness :
  print_data (Process (World [("apple", PInt 3); ("pear", PInt (-1))] [] [] ∅ "") "") =
    (Return tt,
     Process (World [("apple", PInt 3); ("pear", PInt (-1))] [] [] ∅ "")
       (report_text ["apple"; "pear"] ["3"; "-1"])) /\
  fst (print_data
         (Process (World [("apple", PInt 3); ("pear", PInt (10 ^ 4300))] [] [] ∅ "") ""))
    = Raise ValueError.
Proof.
  split.
  - destruct (print_data_writes_report
                (Process (World [("apple", PInt 3); ("pear", PInt (-1))] [] [] ∅ "") ""))
      as [H _].
    + repeat constructor.
    + rewrite (H ["3"; "-1"]); [reflexivity | repeat constructor].
  - destruct (print_data_writes_report
                (Process (World [("apple", PInt 3); ("pear", PInt (10 ^ 4300))] [] [] ∅ "")
                   ""))
      as [_ H].
    + repeat constructor.
    + rewrite (H [("apple", PInt 3)] [] "pear" (PInt (10 ^ 4300)) ["3"] ValueError);
        [reflexivity | reflexivity | repeat constructor | vm_compute; reflexivity].
Defined.

(** ** How the operations compose *)

Lemma add_item_stock_cases (w : world) (item : string) (qty : pyval) (logs : option nat) :
  stock (snd (add_item (Some item) (Some qty) logs w)) = stock w \/
  exists v, stock (snd (add_item (Some item) (Some qty) logs w)) = dict_store item v (stock w).
Proof.
  run. destruct logs; cbn;
    (destruct (String.eqb item ""); cbn; [by left|]);
    (destruct (isinstance_int qty); cbn; [|by left]);
    (destruct (py_add _ _); cbn; [|by left]); right;
    destruct (py_str qty); cbn; eauto.
Qed.



Lemma check_low_items_run (w : world) (threshold : pyval) (th : Z) :
  int_value threshold = Some th ->
  int_valued (stock w) ->
  check_low_items (Some threshold) w =
  (Return (map fst (List.filter (quantity_at_most th) (stock w))), w).
Proof.
  intros Hth Hint. unfold check_low_items, arg, from_option, id.
  rewrite (bind_returns _ _ w w (stock w)) by reflexivity.
  by rewrite (low_items_loop _ th _ [] w Hth Hint).
Qed.

(** X19. On a stock of integers, after a new item is added with the integer
    quantity [q], [check_low_items] returns the list it returned before,
    followed by the new item when [q] is at most the threshold. *)
Theorem check_low_items_after_add_item
    (w : world) (item : string) (qty threshold : pyval) (logs : option nat) (q th : Z) :
  item <> "" ->
  int_value qty = Some q ->
  int_value threshold = Some th ->
  int_valued (stock w) ->
  dict_lookup item (stock w) = None ->
  exists l,
    fst (check_low_items (Some threshold) w) = Return l /\
    fst (check_low_items (Some threshold)
           (snd (add_item (Some item) (Some qty) logs w)))
    = Return (l ++ if (q <=? th)%Z then [item] else []).
Proof.
  intros Hitem Hq Hth Hint Hnone.
  exists (map fst (List.filter (quantity_at_most th) (stock w))).
  rewrite (check_low_items_run w threshold th Hth Hint). split; [done|].
  assert (Hstock : stock (snd (add_item (Some item) (Some qty) logs w)) =
                   stock w ++ [(item, PInt (0 + q))]).
  { rewrite (add_item_stock w item qty logs q 0 Hitem Hq) by by rewrite Hnone.
    apply dict_store_fresh. by apply dict_lookup_None_keys. }
  rewrite check_low_items_run with (th := th); [|done|]; rewrite Hstock.
  - cbn [fst]. rewrite List.filter_app, map_app. cbn [List.filter].
    unfold quantity_at_most at 2. cbn [snd int_value fst].
    change (0 + q)%Z with q. by destruct (q <=? th)%Z.
  - apply Forall_app. split; [done|]. repeat constructor. by eexists.
Qed.

Lemma check_low_items_after_add_item_witness :
  exists l,
    fst (check_low_items (Some (PInt 5)) (World [("a", PInt 1); ("b", PInt 6)] [] [] ∅ ""))
      = Return l /\
    fst (check_low_items (Some (PInt 5))
           (snd (add_item (Some "c") (Some (PInt 5)) None
                   (World [("a", PInt 1); ("b", PInt 6)] [] [] ∅ ""))))
      = Return (l ++ ["c"]).
Proof.
  apply (check_low_items_after_add_item (World [("a", PInt 1); ("b", PInt 6)] [] [] ∅ "")
           "c" (PInt 5) (PInt 5) None 5 5);
    [discriminate | reflexivity | reflexivity | | reflexivity].
  repeat constructor; eexists; reflexivity.
Defined.

Lemma int_valued_remove (k : string) (d : pydict) :
  int_valued d -> int_valued (dict_remove k d).
Proof.
  unfold int_valued, dict_remove. intros Hd. apply Forall_forall.
  intros kv Hin%list_elem_of_In%List.filter_In. destruct Hin as [Hin _].
  rewrite Forall_forall in Hd. by apply Hd, list_elem_of_In.
Qed.

(** X20. An item that [remove_item] takes down to zero or below is no longer
    reported by [check_low_items], whatever the threshold: it is not in the
    stock any more. *)
Theorem depleted_item_not_low_stock
    (w : world) (item : string) (qty old threshold : pyval) (x q th : Z) :
  dict_lookup item (stock w) = Some old ->
  int_value old = Some x ->
  int_value qty = Some q ->
  (x - q <= 0)%Z ->
  int_valued (stock w) ->
  int_value threshold = Some th ->
  exists l,
    fst (check_low_items (Some threshold) (snd (remove_item item qty w))) = Return l /\
    ~ In item l.
Proof.
  intros Hold Hx Hq Hle Hint Hth.
  destruct (remove_item_run w item qty) as (_ & Hstock & _).
  rewrite (stock_after_remove_int _ _ _ _ _ Hold Hx), Hq in Hstock.
  apply Z.leb_le in Hle. rewrite Hle in Hstock.
  eexists. rewrite (check_low_items_run _ threshold th Hth);
    rewrite Hstock; [|by apply int_valued_remove].
  split; [reflexivity|].
  intros Hin. apply List.in_map_iff in Hin as ([k v] & Hk & Hin). cbn [fst] in Hk. subst k.
  apply List.filter_In in Hin as [Hin _].
  apply List.filter_In in Hin as [_ Hne]. cbn [fst] in Hne.
  by rewrite String.eqb_refl in Hne.
Qed.

Lemma depleted_item_not_low_stock_witness :
  exists l,
    fst (check_low_items (Some (PInt 5))
           (snd (remove_item "a" (PInt 1)
                   (World [("a", PInt 1); ("c", PInt 5)] [] [] ∅ "")))) = Return l /\
    ~ In "a" l.
Proof.
  apply (depleted_item_not_low_stock (World [("a", PInt 1); ("c", PInt 5)] [] [] ∅ "")
           "a" (PInt 1) (PInt 1) (PInt 5) 1 1 5);
    [reflexivity | reflexivity | reflexivity | lia | | reflexivity].
  repeat constructor; eexists; reflexivity.
Defined.
